(** * Opple Light Master: frame classifier, session buffer and phase driver

    A shallow embedding of the decoding and session logic of
    [OPPLE_read.py] and [OPPLE_read_1.py]: [parse_opple_data], the two
    [notification_handler]s, [save_measurements_to_csv],
    [calculate_average] and [run_measurement_phase].

    Python values are modelled as follows.
    - [bytes] is a [list Byte.byte]; [len], slicing and [bytes.hex] are
      written out below.
    - [str] is a [string]; the identifiers compared by the code are ASCII,
      and [str.lower] is modelled on the ASCII range.
    - a [dict] with string keys is a [gmap string pyval]; [d.get(k)] is
      [get d k], [k in d] is [is_Some (d !! k)].
    - an exception is a value of [exn]; code that can raise lives in the
      [result] monad and [try]/[except] is [try_except].
    - [print] has no influence on the values computed and is left out; so
      is the append-only raw log, until the last part of the file adds it
      together with the exceptions that are not subclasses of
      [Exception]. *)

From Stdlib Require Import ZArith NArith QArith Qcanon List String Ascii Lia.
From Stdlib.Strings Require Import Byte.
From stdpp Require Import base option list gmap strings pretty numbers.

Local Open Scope Z_scope.
Local Open Scope string_scope.
Local Open Scope list_scope.

(** ** Python values, exceptions *)

Inductive pyval : Type :=
  | VNone
  | VInt (n : Z)
  | VStr (s : string).

#[global] Instance pyval_eq_dec : EqDecision pyval.
Proof. solve_decision. Defined.

Abbreviation dict := (gmap string pyval).

(** [d.get(k)]: the value, or [None] when the key is absent. *)
Definition get (d : dict) (k : string) : pyval := default VNone (d !! k).

Definition is_none (v : pyval) : bool :=
  match v with VNone => true | _ => false end.

(** [v == s] for a string literal [s]. *)
Definition eq_str (v : pyval) (s : string) : bool :=
  match v with VStr s' => String.eqb s' s | _ => false end.

Inductive exn : Type :=
  | struct_error (msg : string)
  | TypeError (msg : string)
  | AttributeError (msg : string)
  | OverflowError (msg : string)
  | ZeroDivisionError (msg : string)
  | OtherException (msg : string).

Definition exn_msg (e : exn) : string :=
  match e with
  | struct_error m | TypeError m | AttributeError m | OverflowError m
  | ZeroDivisionError m | OtherException m => m
  end.

Inductive result (A : Type) : Type :=
  | Ok (a : A)
  | Raise (e : exn).
Arguments Ok {A} a.
Arguments Raise {A} e.

Definition bind {A B} (r : result A) (k : A -> result B) : result B :=
  match r with
  | Ok a => k a
  | Raise e => Raise e
  end.

Notation "x <- r ;;; k" := (bind r (fun x => k))
  (at level 100, r at next level, right associativity).

(** [try: body except E as e: handler e]; every modelled exception is a
    subclass of [Exception], so the handler chain is one total function. *)
Definition try_except {A} (body : result A) (handler : exn -> result A) : result A :=
  match body with
  | Ok a => Ok a
  | Raise e => handler e
  end.

(** ** bytes *)

(** [data[a:b]] for literal bounds [0 <= a <= b]: Python clamps a slice to
    the sequence, it never raises. *)
Definition slice (a b : nat) (data : list Byte.byte) : list Byte.byte :=
  take (b - a) (drop a data).

Definition byte_val (b : Byte.byte) : Z := Z.of_N (Byte.to_N b).

Inductive byte_order := LittleEndian | BigEndian.

(** [struct.unpack('<H', buf)[0]] and [struct.unpack('>H', buf)[0]]:
    [struct.error] unless the buffer has exactly two bytes. *)
Definition struct_unpack_H (order : byte_order) (buf : list Byte.byte) : result Z :=
  match buf with
  | [b0; b1] =>
      match order with
      | LittleEndian => Ok (byte_val b0 + 256 * byte_val b1)
      | BigEndian => Ok (256 * byte_val b0 + byte_val b1)
      end
  | _ => Raise (struct_error "unpack requires a buffer of 2 bytes")
  end.

Definition hex_digit (n : N) : ascii :=
  match n with
  | 0 => "0" | 1 => "1" | 2 => "2" | 3 => "3" | 4 => "4" | 5 => "5"
  | 6 => "6" | 7 => "7" | 8 => "8" | 9 => "9" | 10 => "a" | 11 => "b"
  | 12 => "c" | 13 => "d" | 14 => "e" | _ => "f"
  end%N%char.

(** [data.hex()]: two lowercase digits per byte. *)
Fixpoint hex (data : list Byte.byte) : string :=
  match data with
  | [] => ""
  | b :: rest =>
      String (hex_digit (Byte.to_N b / 16)%N)
        (String (hex_digit (Byte.to_N b mod 16)%N) (hex rest))
  end.

(** ** str *)

Definition lower_ascii (c : ascii) : ascii :=
  let n := N_of_ascii c in
  if ((65 <=? n) && (n <=? 90))%N then ascii_of_N (n + 32) else c.

(** [s.lower()] on ASCII text. *)
Fixpoint lower (s : string) : string :=
  match s with
  | EmptyString => EmptyString
  | String c s' => String (lower_ascii c) (lower s')
  end.

(** [str(n)] for an int, as an f-string renders it. *)
Definition str_of_int (n : Z) : string := pretty n.

(** ** Device configuration *)

Definition OPPLE_CHARACTERISTIC_UUID_DATA_RX : string :=
  "6e400002-b5a3-f393-e0a9-e50e24dcca9e".
Definition OPPLE_CHARACTERISTIC_UUID_COMMAND_TX : string :=
  "6e400003-b5a3-f393-e0a9-e50e24dcca9e".

Definition bytes_of (l : list N) : list Byte.byte :=
  omap Byte.of_N l.

Definition OPPLE_COMMAND_START_MEASUREMENT : list Byte.byte :=
  Eval cbv in bytes_of [0; 0; 0x0e; 0; 0x13; 0; 0; 2; 0; 0; 0; 0; 0x0a; 0]%N.
Definition OPPLE_COMMAND_STOP_MEASUREMENT : list Byte.byte :=
  Eval cbv in bytes_of [0; 0; 0x0e; 0; 0x13; 0; 0; 2; 0; 0; 0; 0; 0x0b; 0]%N.

(** ** parse_opple_data (identical in OPPLE_read.py and OPPLE_read_1.py) *)

(** What the function returns: a dict, or an [ERROR: ...]/[INFO: ...] string. *)
Inductive parsed_result : Type :=
  | PDict (d : dict)
  | PStr (s : string).

Definition parse_opple_data (data : list Byte.byte) (source_uuid : string)
  : result parsed_result :=
  let parsed : dict := ∅ in
  if String.eqb (lower source_uuid) (lower OPPLE_CHARACTERISTIC_UUID_COMMAND_TX) then
    if Nat.eqb (length data) 20 then
      let parsed := <["packet_type" := VStr "20_byte_measurement_or_status"]> parsed in
      let parsed := <["raw_hex" := VStr (hex data)]> parsed in
      try_except
        (raw_val1 <- struct_unpack_H LittleEndian (slice 14 16 data) ;;;
         raw_val2 <- struct_unpack_H LittleEndian (slice 16 18 data) ;;;
         raw_val3 <- struct_unpack_H LittleEndian (slice 18 20 data) ;;;
         let parsed := <["RawVal_1" := VInt raw_val1]> parsed in
         let parsed := <["RawVal_2" := VInt raw_val2]> parsed in
         let parsed := <["RawVal_3" := VInt raw_val3]> parsed in
         let parsed :=
           if Z.eqb raw_val1 0 && Z.eqb raw_val2 0 && Z.eqb raw_val3 0
           then <["measurement_state" := VStr "DARK"]> parsed
           else <["measurement_state" := VStr "LIGHT_DETECTED"]> parsed in
         Ok (PDict parsed))
        (fun e =>
           match e with
           | struct_error m =>
               Ok (PStr ("ERROR: Could not unpack 20-byte data from "
                         +:+ source_uuid +:+ ": " +:+ m))
           | _ =>
               Ok (PStr ("ERROR: Unknown parsing error for 20-byte data from "
                         +:+ source_uuid +:+ ": " +:+ exn_msg e))
           end)
    else if Nat.eqb (length data) 11 then
      let parsed := <["packet_type" := VStr "11_byte_status_or_battery"]> parsed in
      let parsed := <["raw_hex" := VStr (hex data)]> parsed in
      try_except
        (raw_battery_mv <- struct_unpack_H BigEndian (slice 8 10 data) ;;;
         let parsed := <["RawBattery_mV" := VInt raw_battery_mv]> parsed in
         Ok (PDict parsed))
        (fun e =>
           match e with
           | struct_error m =>
               Ok (PStr ("ERROR: Could not unpack 11-byte battery data from "
                         +:+ source_uuid +:+ ": " +:+ m))
           | _ =>
               Ok (PStr ("ERROR: Unknown parsing error for 11-byte data from "
                         +:+ source_uuid +:+ ": " +:+ exn_msg e))
           end)
    else
      let parsed :=
        <["packet_type" :=
            VStr ("UNKNOWN_LEN_FROM_COMMAND_CHAR ("
                  +:+ str_of_int (Z.of_nat (length data)) +:+ "B)")]> parsed in
      let parsed := <["raw_hex" := VStr (hex data)]> parsed in
      Ok (PDict parsed)
  else if String.eqb (lower source_uuid) (lower OPPLE_CHARACTERISTIC_UUID_DATA_RX) then
    let parsed := <["packet_type" := VStr "MEASUREMENT_DATA_CANDIDATE_FROM_RX_CHAR"]> parsed in
    let parsed := <["raw_hex" := VStr (hex data)]> parsed in
    let parsed := <["data_length" := VInt (Z.of_nat (length data))]> parsed in
    Ok (PDict parsed)
  else
    Ok (PStr ("INFO: Data from unhandled characteristic " +:+ source_uuid
              +:+ " (Length " +:+ str_of_int (Z.of_nat (length data)) +:+ "): "
              +:+ hex data)).

(** ** Notifications and the session buffer *)

(** One transport notification: the time the handler reads from the clock,
    the characteristic it came from, and the payload. *)
Record notification : Type := Notification {
  n_time : string;
  n_uuid : string;
  n_data : list Byte.byte
}.

(** Truth value of a [str]. *)
Definition str_truthy (s : string) : bool :=
  match s with EmptyString => false | _ => true end.

(** The buffer [current_measurements] is a list of dicts. Every dict in it
    is a fresh object (a dict literal in OPPLE_read_1.py, the dict just
    returned by the parser in OPPLE_read.py), so no two entries alias and a
    list of values describes it. *)

Module OPPLE_read_1.

Definition measurement_entry (current_time_log : string) (parsed_result : dict) : dict :=
  <["App_Battery_Percent" := VNone]>
  (<["App_v" := VNone]>
  (<["App_u" := VNone]>
  (<["App_y" := VNone]>
  (<["App_x" := VNone]>
  (<["App_Ra" := VNone]>
  (<["App_CCT" := VNone]>
  (<["App_Lux" := VNone]>
  (<["RawBattery_mV" := VNone]>
  (<["RawVal_3" := get parsed_result "RawVal_3"]>
  (<["RawVal_2" := get parsed_result "RawVal_2"]>
  (<["RawVal_1" := get parsed_result "RawVal_1"]>
  (<["raw_hex" := get parsed_result "raw_hex"]>
  (<["timestamp" := VStr current_time_log]> ∅))))))))))))).

(** [current_measurements[-1]['RawBattery_mV'] = v] on a non-empty list. *)
Definition set_last_battery (v : pyval) (current_measurements : list dict) : list dict :=
  match list.last current_measurements with
  | Some r =>
      <[(length current_measurements - 1)%nat := <["RawBattery_mV" := v]> r]>
        current_measurements
  | None => current_measurements
  end.

(** The handler after its call to the parser: what it does to
    [current_measurements] for a given parser result. *)
Definition on_decoded (current_time_log : string) (parsed_result : parsed_result)
    (current_measurements : list dict) : result (list dict) :=
  match parsed_result with
  | PStr s =>
      if String.prefix "ERROR" s then Ok current_measurements
      else if String.prefix "INFO" s then Ok current_measurements
      else if str_truthy s
           then Raise (AttributeError "'str' object has no attribute 'get'")
           else Ok current_measurements
  | PDict d =>
      if bool_decide (d = ∅) then Ok current_measurements
      else if eq_str (get d "packet_type") "20_byte_measurement_or_status" then
        if eq_str (get d "measurement_state") "LIGHT_DETECTED"
        then Ok (current_measurements ++ [measurement_entry current_time_log d])%list
        else Ok current_measurements
      else if eq_str (get d "packet_type") "11_byte_status_or_battery" then
        match list.last current_measurements with
        | Some r =>
            if is_none (get r "RawBattery_mV")
            then Ok (set_last_battery (get d "RawBattery_mV") current_measurements)
            else Ok current_measurements
        | None => Ok current_measurements
        end
      else Ok current_measurements
  end.

Definition notification_handler (current_time_log sender_uuid : string)
    (data : list Byte.byte) (current_measurements : list dict) : result (list dict) :=
  parsed_result <- parse_opple_data data sender_uuid ;;;
  on_decoded current_time_log parsed_result current_measurements.

(** The event loop runs the callback for each notification in delivery
    order; an exception escaping a callback is reported by the loop and
    does not stop later callbacks. *)
Definition on_notification (current_measurements : list dict) (n : notification) : list dict :=
  match notification_handler (n_time n) (n_uuid n) (n_data n) current_measurements with
  | Ok b => b
  | Raise _ => current_measurements
  end.

Definition deliver (ns : list notification) (current_measurements : list dict) : list dict :=
  foldl on_notification current_measurements ns.

End OPPLE_read_1.

Module OPPLE_read.

(** Here the parser's own dict is extended in place and appended. *)
Definition light_entry (current_time_log : string) (parsed_result : dict) : dict :=
  <["App_Battery_Percent" := VNone]>
  (<["App_v" := VNone]>
  (<["App_u" := VNone]>
  (<["App_y" := VNone]>
  (<["App_x" := VNone]>
  (<["App_Ra" := VNone]>
  (<["App_CCT" := VNone]>
  (<["App_Lux" := VNone]>
  (<["timestamp" := VStr current_time_log]> parsed_result)))))))).

Definition on_decoded (current_time_log : string) (parsed_result : parsed_result)
    (current_measurements : list dict) : result (list dict) :=
  match parsed_result with
  | PStr s =>
      if String.prefix "ERROR" s then Ok current_measurements
      else if String.prefix "INFO" s then Ok current_measurements
      else if str_truthy s
           then Raise (AttributeError "'str' object has no attribute 'get'")
           else Ok current_measurements
  | PDict d =>
      if bool_decide (d = ∅) then Ok current_measurements
      else if eq_str (get d "packet_type") "20_byte_measurement_or_status" then
        if eq_str (get d "measurement_state") "LIGHT_DETECTED"
        then Ok (current_measurements ++ [light_entry current_time_log d])%list
        else Ok current_measurements
      else if eq_str (get d "packet_type") "11_byte_status_or_battery" then
        Ok current_measurements
      else Ok current_measurements
  end.

Definition notification_handler (current_time_log sender_uuid : string)
    (data : list Byte.byte) (current_measurements : list dict) : result (list dict) :=
  parsed_result <- parse_opple_data data sender_uuid ;;;
  on_decoded current_time_log parsed_result current_measurements.

Definition on_notification (current_measurements : list dict) (n : notification) : list dict :=
  match notification_handler (n_time n) (n_uuid n) (n_data n) current_measurements with
  | Ok b => b
  | Raise _ => current_measurements
  end.

Definition deliver (ns : list notification) (current_measurements : list dict) : list dict :=
  foldl on_notification current_measurements ns.

End OPPLE_read.

(** ** Export *)

(** A tabular file is kept as its rows of cells, the header row first: what
    [csv.reader] gives back. The file system is the files written so far and
    the paths [open(..., 'w')] refuses with an [IOError]. *)
Record filesystem : Type := FileSystem {
  files : gmap string (list (list string));
  unwritable : gset string
}.

Definition fieldnames : list string :=
  ["timestamp"; "raw_hex"; "RawVal_1"; "RawVal_2"; "RawVal_3"; "RawBattery_mV";
   "App_Lux"; "App_CCT"; "App_Ra"; "App_x"; "App_y"; "App_u"; "App_v";
   "App_Battery_Percent"].

(** How [csv] renders a cell: [None] as the empty string, an int by [str]. *)
Definition csv_cell (v : pyval) : string :=
  match v with
  | VNone => ""
  | VInt n => str_of_int n
  | VStr s => s
  end.

(** [{field: row.get(field) for field in fieldnames}], written in
    [fieldnames] order. *)
Definition clean_row (row : dict) : list string :=
  map (fun field => csv_cell (get row field)) fieldnames.

(** [save_measurements_to_csv] (identical in both scripts). *)
Definition save_measurements_to_csv (filename : string) (data_list : list dict)
    (fs : filesystem) : filesystem :=
  match data_list with
  | [] => fs
  | _ =>
      if bool_decide (filename ∈ unwritable fs) then fs
      else {| files := <[filename := fieldnames :: map clean_row data_list]> (files fs);
              unwritable := unwritable fs |}
  end.

(** ** calculate_average (OPPLE_read.py) *)

Definition keys_to_average : list string :=
  ["RawVal_1"; "RawVal_2"; "RawVal_3"; "RawBattery_mV"].

(** [[m[key] for m in measurements if key in m and m[key] is not None]] *)
Definition values_for (key : string) (measurements : list dict) : list pyval :=
  omap (fun m : dict =>
          match m !! key with
          | Some v => if is_none v then None else Some v
          | None => None
          end) measurements.

(** [sum(values)]: integer addition from 0; a [str] operand is a [TypeError]. *)
Fixpoint py_sum (values : list pyval) (acc : Z) : result Z :=
  match values with
  | [] => Ok acc
  | VInt n :: rest => py_sum rest (acc + n)
  | _ :: _ => Raise (TypeError "unsupported operand type(s) for +")
  end.

(** The magnitude from which a quotient no longer rounds to a finite
    double: halfway between the largest double, [2^1024 - 2^971], and
    [2^1024]. *)
Definition float_overflow_bound : Z := 2 ^ 1024 - 2 ^ 970.

(** [sum(values) / len(values)] is true division of two ints: Python
    returns the double nearest to the exact quotient, raises
    [OverflowError] when that is not a finite double, and
    [ZeroDivisionError] for a zero divisor. The model keeps the exact
    quotient as a rational where Python returns a double. *)
Definition true_div (s : Z) (n : nat) : result Qc :=
  if Nat.eqb n 0 then Raise (ZeroDivisionError "division by zero")
  else if Z.leb (float_overflow_bound * Z.of_nat n) (Z.abs s)
       then Raise (OverflowError "integer division result too large for a float")
       else Ok (Qc_of_Z s / Qc_of_Z (Z.of_nat n))%Qc.

Fixpoint average_keys (keys : list string) (measurements : list dict)
    (avg_data : gmap string (option Qc)) : result (gmap string (option Qc)) :=
  match keys with
  | [] => Ok avg_data
  | key :: rest =>
      let values := values_for key measurements in
      match values with
      | [] => average_keys rest measurements (<[key := None]> avg_data)
      | _ =>
          s <- py_sum values 0 ;;;
          q <- true_div s (length values) ;;;
          average_keys rest measurements (<[key := Some q]> avg_data)
      end
  end.

(** The result maps a key to [Some q] (a number), to [None] (Python's
    [None]), or has no entry for it. *)
Definition calculate_average (measurements : list dict)
  : result (gmap string (option Qc)) :=
  match measurements with
  | [] => Ok ∅
  | _ => average_keys keys_to_average measurements ∅
  end.

(** ** run_measurement_phase (OPPLE_read_1.py) *)

(** The coroutine suspends at each [await]. While it is suspended the event
    loop may run the notification callback any number of times; then the
    awaited call returns or raises. *)
Record await_result : Type := Await {
  delivered : list notification;
  raised : option exn
}.

Record phase_state : Type := PhaseState {
  current_measurements : list dict;
  commands : list (list Byte.byte);   (* every value handed to write_gatt_char, in order *)
  phase_files : filesystem
}.

Definition phase (A : Type) : Type := phase_state -> phase_state * result A.

Definition receive (a : await_result) (st : phase_state) : phase_state :=
  {| current_measurements := OPPLE_read_1.deliver (delivered a) (current_measurements st);
     commands := commands st;
     phase_files := phase_files st |}.

Definition outcome (a : await_result) : result unit :=
  match raised a with
  | Some e => Raise e
  | None => Ok tt
  end.

(** [await client.write_gatt_char(COMMAND_TX, value)] *)
Definition write_gatt_char (a : await_result) (value : list Byte.byte) : phase unit :=
  fun st =>
    (receive a {| current_measurements := current_measurements st;
                  commands := commands st ++ [value];
                  phase_files := phase_files st |},
     outcome a).

(** [await asyncio.sleep(...)] *)
Definition sleep (a : await_result) : phase unit :=
  fun st => (receive a st, outcome a).

Definition and_then (m1 m2 : phase unit) : phase unit :=
  fun st =>
    match m1 st with
    | (st', Ok _) => m2 st'
    | (st', Raise e) => (st', Raise e)
    end.

Infix ">>" := and_then (at level 61, left associativity).

Section PhaseDriver.

(** [env p] is what happens at the [p]-th await of the loop; iteration [i]
    (counted from 0) owns the awaits [4*i .. 4*i+3]. *)
Variable env : nat -> await_result.

(** The [try] block of one iteration. *)
Definition poll (i : nat) : phase unit :=
  write_gatt_char (env (4 * i)) OPPLE_COMMAND_START_MEASUREMENT >>
  sleep (env (4 * i + 1)) >>
  write_gatt_char (env (4 * i + 2)) OPPLE_COMMAND_STOP_MEASUREMENT >>
  sleep (env (4 * i + 3)).

(** [for i in range(num_measurements)], with [count] iterations left;
    [except Exception: break]. *)
Fixpoint polling_loop (count i : nat) (st : phase_state) : phase_state :=
  match count with
  | O => st
  | S count' =>
      match poll i st with
      | (st', Ok _) => polling_loop count' (S i) st'
      | (st', Raise _) => st'
      end
  end.

Definition replace_space (s : string) : string :=
  string_of_list_ascii
    (map (fun c => if Ascii.eqb c " " then "_"%char else c) (list_ascii_of_string s)).

Definition output_filename (phase_name : string) : string :=
  "measurements_" +:+ lower (replace_space phase_name) +:+ ".csv".

(** The operator prompt before the loop blocks without running the event
    loop and touches no state; it is left out. *)
Definition run_measurement_phase (phase_name : string) (num_measurements : nat)
    (fs : filesystem) : phase_state :=
  let st := polling_loop num_measurements 0
              {| current_measurements := []; commands := []; phase_files := fs |} in
  {| current_measurements := current_measurements st;
     commands := commands st;
     phase_files :=
       save_measurements_to_csv (output_filename phase_name)
         (current_measurements st) (phase_files st) |}.

End PhaseDriver.

(** ** Vocabulary of the specification *)

(** A frame arrived on the command channel: the comparison the parser makes. *)
Definition on_command_channel (source_uuid : string) : Prop :=
  lower source_uuid = lower OPPLE_CHARACTERISTIC_UUID_COMMAND_TX.

(** The byte at an offset, as a number. *)
Definition byte_at (data : list Byte.byte) (i : nat) : Z :=
  match data !! i with
  | Some b => byte_val b
  | None => 0
  end.

(** Unsigned 16-bit integers at byte offsets [i], [i+1]. *)
Definition u16_le_at (data : list Byte.byte) (i : nat) : Z :=
  byte_at data i + 256 * byte_at data (i + 1).

Definition u16_be_at (data : list Byte.byte) (i : nat) : Z :=
  256 * byte_at data i + byte_at data (i + 1).

(** * Properties *)

(** ** The frame classifier *)

Lemma byte_val_range (b : Byte.byte) : 0 <= byte_val b < 256.
Proof.
  unfold byte_val. pose proof (Byte.to_N_bounded b) as Hb. lia.
Qed.

Lemma byte_at_range (data : list Byte.byte) (i : nat) : 0 <= byte_at data i < 256.
Proof.
  unfold byte_at. destruct (data !! i) as [b|]; [apply byte_val_range | lia].
Qed.

Lemma u16_le_at_range (data : list Byte.byte) (i : nat) : 0 <= u16_le_at data i < 65536.
Proof.
  unfold u16_le_at.
  pose proof (byte_at_range data i). pose proof (byte_at_range data (i + 1)). lia.
Qed.

Lemma u16_be_at_range (data : list Byte.byte) (i : nat) : 0 <= u16_be_at data i < 65536.
Proof.
  unfold u16_be_at.
  pose proof (byte_at_range data i). pose proof (byte_at_range data (i + 1)). lia.
Qed.

(** On a list at least [i + 2] long, the two-byte slice decodes to the
    integer read off the offsets. *)
Lemma unpack_slice_le (data : list Byte.byte) (i : nat) :
  (i + 2 <= length data)%nat ->
  struct_unpack_H LittleEndian (slice i (i + 2) data) = Ok (u16_le_at data i).
Proof.
  intros Hlen. unfold slice, u16_le_at, byte_at.
  replace (i + 2 - i)%nat with 2%nat by lia.
  assert (Hd : (2 <= length (drop i data))%nat) by (rewrite length_drop; lia).
  assert (H0 : data !! i = drop i data !! 0%nat)
    by (rewrite lookup_drop; f_equal; lia).
  assert (H1 : data !! (i + 1)%nat = drop i data !! 1%nat)
    by (rewrite lookup_drop; reflexivity).
  rewrite H0, H1.
  destruct (drop i data) as [|b0 [|b1 rest]]; simpl in Hd; try lia.
  reflexivity.
Qed.

Lemma unpack_slice_be (data : list Byte.byte) (i : nat) :
  (i + 2 <= length data)%nat ->
  struct_unpack_H BigEndian (slice i (i + 2) data) = Ok (u16_be_at data i).
Proof.
  intros Hlen. unfold slice, u16_be_at, byte_at.
  replace (i + 2 - i)%nat with 2%nat by lia.
  assert (Hd : (2 <= length (drop i data))%nat) by (rewrite length_drop; lia).
  assert (H0 : data !! i = drop i data !! 0%nat)
    by (rewrite lookup_drop; f_equal; lia).
  assert (H1 : data !! (i + 1)%nat = drop i data !! 1%nat)
    by (rewrite lookup_drop; reflexivity).
  rewrite H0, H1.
  destruct (drop i data) as [|b0 [|b1 rest]]; simpl in Hd; try lia.
  reflexivity.
Qed.

Lemma slice_length (data : list Byte.byte) (i : nat) :
  (i + 2 <= length data)%nat -> length (slice i (i + 2) data) = 2%nat.
Proof.
  intros Hlen. unfold slice. rewrite length_take, length_drop. lia.
Qed.

(** The records of the data model, as the dicts the parser builds. *)
Definition primary_sample (raw_hex : string) (a b c : Z) (state : string) : dict :=
  list_to_map
    [("packet_type", VStr "20_byte_measurement_or_status");
     ("raw_hex", VStr raw_hex);
     ("RawVal_1", VInt a); ("RawVal_2", VInt b); ("RawVal_3", VInt c);
     ("measurement_state", VStr state)].

Definition auxiliary_sample (raw_hex : string) (raw_battery_mv : Z) : dict :=
  list_to_map
    [("packet_type", VStr "11_byte_status_or_battery");
     ("raw_hex", VStr raw_hex);
     ("RawBattery_mV", VInt raw_battery_mv)].

Definition state_of (a b c : Z) : string :=
  if decide (a = 0 /\ b = 0 /\ c = 0) then "DARK" else "LIGHT_DETECTED".

(** The parser on a 20-byte frame of the command channel, in one equation. *)
Lemma parse_20 (data : list Byte.byte) (source_uuid : string) :
  on_command_channel source_uuid ->
  length data = 20%nat ->
  parse_opple_data data source_uuid =
    Ok (PDict (primary_sample (hex data) (u16_le_at data 14) (u16_le_at data 16)
                 (u16_le_at data 18)
                 (state_of (u16_le_at data 14) (u16_le_at data 16) (u16_le_at data 18)))).
Proof.
  intros Hch Hlen. unfold parse_opple_data.
  apply String.eqb_eq in Hch. rewrite Hch, Hlen. simpl Nat.eqb. cbv iota.
  change 16%nat with (14 + 2)%nat at 1. change 18%nat with (16 + 2)%nat at 1.
  change 20%nat with (18 + 2)%nat at 1.
  rewrite !unpack_slice_le by lia.
  unfold try_except, bind, state_of, primary_sample.
  generalize (u16_le_at data 14) (u16_le_at data 16) (u16_le_at data 18) (hex data).
  intros a b c h.
  destruct (Z.eqb_spec a 0) as [->|Ha]; [destruct (Z.eqb_spec b 0) as [->|Hb];
    [destruct (Z.eqb_spec c 0) as [->|Hc]|]|]; simpl andb; cbv iota;
    case_decide as Hd; try (exfalso; lia); try (exfalso; apply Hd; lia);
    do 2 f_equal; apply map_eq; intros k;
    repeat (rewrite lookup_insert; case_decide; [subst; reflexivity|]);
    simpl; repeat (rewrite lookup_insert_ne by congruence); reflexivity.
Qed.

(** The parser on an 11-byte frame of the command channel. *)
Lemma parse_11 (data : list Byte.byte) (source_uuid : string) :
  on_command_channel source_uuid ->
  length data = 11%nat ->
  parse_opple_data data source_uuid =
    Ok (PDict (auxiliary_sample (hex data) (u16_be_at data 8))).
Proof.
  intros Hch Hlen. unfold parse_opple_data.
  apply String.eqb_eq in Hch. rewrite Hch, Hlen. simpl Nat.eqb. cbv iota.
  change 10%nat with (8 + 2)%nat.
  rewrite unpack_slice_be by lia.
  unfold try_except, bind, auxiliary_sample.
  generalize (u16_be_at data 8) (hex data). intros v h.
  do 2 f_equal; apply map_eq; intros k;
    repeat (rewrite lookup_insert; case_decide; [subst; reflexivity|]);
    simpl; repeat (rewrite lookup_insert_ne by congruence); reflexivity.
Qed.

Lemma u16_le_zero (data : list Byte.byte) (i : nat) :
  u16_le_at data i = 0 <-> byte_at data i = 0 /\ byte_at data (i + 1) = 0.
Proof.
  unfold u16_le_at.
  pose proof (byte_at_range data i). pose proof (byte_at_range data (i + 1)). lia.
Qed.

Lemma byte_at_app_r (p t : list Byte.byte) (k : nat) :
  byte_at (p ++ t)%list (length p + k) = byte_at t k.
Proof.
  unfold byte_at. rewrite lookup_app_r by lia.
  replace (length p + k - length p)%nat with k by lia. reflexivity.
Qed.

(** C1. A 20-byte frame on the command channel is classified as a primary
    sample: its three raw fields are the unsigned 16-bit little-endian
    integers at offsets 14-15, 16-17 and 18-19, and its state is [DARK]
    exactly when all three are zero (equivalently, when bytes 14..19 are all
    zero), [LIGHT_DETECTED] otherwise. *)
Theorem parse_primary_sample (data : list Byte.byte) (source_uuid : string) :
  on_command_channel source_uuid ->
  length data = 20%nat ->
  exists a b c state,
    parse_opple_data data source_uuid = Ok (PDict (primary_sample (hex data) a b c state))
    /\ a = u16_le_at data 14 /\ b = u16_le_at data 16 /\ c = u16_le_at data 18
    /\ (0 <= a < 65536 /\ 0 <= b < 65536 /\ 0 <= c < 65536)
    /\ (state = "DARK" <-> a = 0 /\ b = 0 /\ c = 0)
    /\ (state = "LIGHT_DETECTED" <-> ~ (a = 0 /\ b = 0 /\ c = 0))
    /\ (a = 0 /\ b = 0 /\ c = 0 <->
        forall i, (14 <= i < 20)%nat -> byte_at data i = 0).
Proof.
  intros Hch Hlen.
  exists (u16_le_at data 14), (u16_le_at data 16), (u16_le_at data 18).
  exists (state_of (u16_le_at data 14) (u16_le_at data 16) (u16_le_at data 18)).
  split; [apply parse_20; assumption|].
  do 3 (split; [reflexivity|]).
  split; [repeat split; apply u16_le_at_range|].
  split; [unfold state_of; case_decide; split; (tauto || discriminate)|].
  split; [unfold state_of; case_decide; split; (tauto || discriminate)|].
  rewrite !u16_le_zero. simpl Nat.add. split.
  - intros Hz i Hi.
    assert (i = 14 \/ i = 15 \/ i = 16 \/ i = 17 \/ i = 18 \/ i = 19)%nat
      as [->|[->|[->|[->|[->| ->]]]]] by lia; tauto.
  - intros Hz. repeat split; apply Hz; lia.
Qed.

Definition example_header : list Byte.byte :=
  [x80; x00; x1f; x00; x00; x00; x00; x00; x02; x00; x00; x00; x0a; x01].

Definition example_frame : list Byte.byte :=
  (example_header ++ [x0b; x00; xb2; x10; x82; x16])%list.

Lemma parse_primary_sample_witness :
  exists a b c state,
    parse_opple_data example_frame OPPLE_CHARACTERISTIC_UUID_COMMAND_TX
      = Ok (PDict (primary_sample (hex example_frame) a b c state))
    /\ a = u16_le_at example_frame 14 /\ b = u16_le_at example_frame 16
    /\ c = u16_le_at example_frame 18
    /\ (0 <= a < 65536 /\ 0 <= b < 65536 /\ 0 <= c < 65536)
    /\ (state = "DARK" <-> a = 0 /\ b = 0 /\ c = 0)
    /\ (state = "LIGHT_DETECTED" <-> ~ (a = 0 /\ b = 0 /\ c = 0))
    /\ (a = 0 /\ b = 0 /\ c = 0 <->
        forall i, (14 <= i < 20)%nat -> byte_at example_frame i = 0).
Proof.
  apply (parse_primary_sample example_frame OPPLE_CHARACTERISTIC_UUID_COMMAND_TX);
    reflexivity.
Defined.

(** C2. Any 20-byte command-channel frame whose bytes 14..19 are
    0b 00 b2 10 82 16 has raw fields (11, 4274, 5762) and state
    [LIGHT_DETECTED]. *)
Theorem parse_worked_example (header : list Byte.byte) (source_uuid : string) :
  on_command_channel source_uuid ->
  length header = 14%nat ->
  let data := (header ++ [x0b; x00; xb2; x10; x82; x16])%list in
  parse_opple_data data source_uuid =
    Ok (PDict (primary_sample (hex data) 11 4274 5762 "LIGHT_DETECTED")).
Proof.
  intros Hch Hlen data.
  rewrite parse_20 by (try assumption; unfold data; rewrite length_app, Hlen; reflexivity).
  assert (Ha : u16_le_at data 14 = 11).
  { unfold u16_le_at, data. rewrite <- Hlen.
    rewrite <- (Nat.add_0_r (length header)) at 1.
    rewrite !byte_at_app_r. reflexivity. }
  assert (Hb : u16_le_at data 16 = 4274).
  { unfold u16_le_at, data.
    replace 16%nat with (length header + 2)%nat by lia.
    rewrite <- Nat.add_assoc, !byte_at_app_r. reflexivity. }
  assert (Hc : u16_le_at data 18 = 5762).
  { unfold u16_le_at, data.
    replace 18%nat with (length header + 4)%nat by lia.
    rewrite <- Nat.add_assoc, !byte_at_app_r. reflexivity. }
  rewrite Ha, Hb, Hc. reflexivity.
Qed.

Lemma parse_worked_example_witness :
  parse_opple_data example_frame "6E400003-B5A3-F393-E0A9-E50E24DCCA9E" =
    Ok (PDict (primary_sample "80001f0000000000020000000a010b00b2108216"
                 11 4274 5762 "LIGHT_DETECTED")).
Proof.
  apply (parse_worked_example example_header "6E400003-B5A3-F393-E0A9-E50E24DCCA9E");
    reflexivity.
Defined.

(** C3. An 11-byte frame on the command channel is classified as an
    auxiliary sample whose battery field is the unsigned 16-bit big-endian
    integer at offsets 8-9; bytes 27 10 there give 10000. *)
Theorem parse_auxiliary_sample (data : list Byte.byte) (source_uuid : string) :
  on_command_channel source_uuid ->
  length data = 11%nat ->
  exists mv,
    parse_opple_data data source_uuid = Ok (PDict (auxiliary_sample (hex data) mv))
    /\ mv = u16_be_at data 8
    /\ 0 <= mv < 65536
    /\ (data !! 8%nat = Some x27 -> data !! 9%nat = Some x10 -> mv = 10000).
Proof.
  intros Hch Hlen. exists (u16_be_at data 8).
  split; [apply parse_11; assumption|].
  split; [reflexivity|]. split; [apply u16_be_at_range|].
  intros H8 H9. unfold u16_be_at, byte_at. simpl Nat.add. rewrite H8, H9. reflexivity.
Qed.

Definition example_battery_frame : list Byte.byte :=
  [x00; x00; x0b; x00; x13; x00; x00; x02; x27; x10; x00].

Lemma parse_auxiliary_sample_witness :
  exists mv,
    parse_opple_data example_battery_frame OPPLE_CHARACTERISTIC_UUID_COMMAND_TX
      = Ok (PDict (auxiliary_sample (hex example_battery_frame) mv))
    /\ mv = u16_be_at example_battery_frame 8
    /\ 0 <= mv < 65536
    /\ (example_battery_frame !! 8%nat = Some x27 ->
        example_battery_frame !! 9%nat = Some x10 -> mv = 10000).
Proof.
  apply (parse_auxiliary_sample example_battery_frame
           OPPLE_CHARACTERISTIC_UUID_COMMAND_TX); reflexivity.
Defined.

(** C10. For a command-channel frame of length exactly 20 (resp. 11) every
    two-byte slice the parser takes has exactly two bytes, no unpack raises,
    and the parser returns the sample dict, never an error string. *)
Theorem decode_failure_unreachable (data : list Byte.byte) (source_uuid : string) :
  on_command_channel source_uuid ->
  (length data = 20%nat ->
     length (slice 14 16 data) = 2%nat /\ length (slice 16 18 data) = 2%nat
     /\ length (slice 18 20 data) = 2%nat
     /\ (forall i, In i [14; 16; 18]%nat ->
           exists v, struct_unpack_H LittleEndian (slice i (i + 2) data) = Ok v)
     /\ (exists a b c state,
           parse_opple_data data source_uuid
             = Ok (PDict (primary_sample (hex data) a b c state)))
     /\ forall s, parse_opple_data data source_uuid <> Ok (PStr s))
  /\ (length data = 11%nat ->
        length (slice 8 10 data) = 2%nat
        /\ (exists v, struct_unpack_H BigEndian (slice 8 10 data) = Ok v)
        /\ (exists mv,
              parse_opple_data data source_uuid
                = Ok (PDict (auxiliary_sample (hex data) mv)))
        /\ forall s, parse_opple_data data source_uuid <> Ok (PStr s)).
Proof.
  intros Hch. split; intros Hlen.
  - split; [apply (slice_length data 14); lia|].
    split; [apply (slice_length data 16); lia|].
    split; [apply (slice_length data 18); lia|].
    split.
    { intros i Hi. exists (u16_le_at data i). apply unpack_slice_le.
      simpl in Hi. lia. }
    rewrite (parse_20 data source_uuid Hch Hlen).
    split; [eauto 10 | discriminate].
  - split; [apply (slice_length data 8); lia|].
    split; [exists (u16_be_at data 8); apply (unpack_slice_be data 8); lia|].
    rewrite (parse_11 data source_uuid Hch Hlen).
    split; [eauto | discriminate].
Qed.

Lemma decode_failure_unreachable_witness :
  (exists a b c state,
     parse_opple_data example_frame OPPLE_CHARACTERISTIC_UUID_COMMAND_TX
       = Ok (PDict (primary_sample (hex example_frame) a b c state)))
  /\ (exists mv,
        parse_opple_data example_battery_frame OPPLE_CHARACTERISTIC_UUID_COMMAND_TX
          = Ok (PDict (auxiliary_sample (hex example_battery_frame) mv))).
Proof.
  split.
  - apply (decode_failure_unreachable example_frame
             OPPLE_CHARACTERISTIC_UUID_COMMAND_TX); reflexivity.
  - apply (decode_failure_unreachable example_battery_frame
             OPPLE_CHARACTERISTIC_UUID_COMMAND_TX); reflexivity.
Defined.

(** *** Every case of the parser *)

(** A result both handlers pass over without touching the buffer. *)
Definition ignored (r : parsed_result) : Prop :=
  forall t buf,
    OPPLE_read_1.on_decoded t r buf = Ok buf /\ OPPLE_read.on_decoded t r buf = Ok buf.

(** What the handlers can dispatch on: a dict carrying a packet type, or a
    string tagged [ERROR] or [INFO]. *)
Definition explicit_result (r : parsed_result) : Prop :=
  match r with
  | PDict d => exists t, d !! "packet_type" = Some (VStr t)
  | PStr s => String.prefix "ERROR" s = true \/ String.prefix "INFO" s = true
  end.

Lemma insert_nonempty (d : dict) (k : string) (v : pyval) :
  bool_decide (<[k := v]> d = ∅) = false.
Proof.
  apply bool_decide_eq_false. apply insert_non_empty.
Qed.

Inductive parse_case (data : list Byte.byte) (source_uuid : string) : Prop :=
  | case_primary :
      on_command_channel source_uuid -> length data = 20%nat ->
      parse_case data source_uuid
  | case_auxiliary :
      on_command_channel source_uuid -> length data = 11%nat ->
      parse_case data source_uuid
  | case_other (r : parsed_result) :
      ~ (on_command_channel source_uuid /\ (length data = 20 \/ length data = 11)%nat) ->
      parse_opple_data data source_uuid = Ok r ->
      explicit_result r -> ignored r ->
      parse_case data source_uuid.

Lemma parse_cases (data : list Byte.byte) (source_uuid : string) :
  parse_case data source_uuid.
Proof.
  destruct (String.eqb (lower source_uuid) (lower OPPLE_CHARACTERISTIC_UUID_COMMAND_TX))
    eqn:Hcmd.
  - assert (Hch : on_command_channel source_uuid) by (apply String.eqb_eq; exact Hcmd).
    destruct (Nat.eqb_spec (length data) 20) as [H20|H20];
      [apply case_primary; assumption|].
    destruct (Nat.eqb_spec (length data) 11) as [H11|H11];
      [apply case_auxiliary; assumption|].
    eapply case_other.
    + intros [_ [?|?]]; contradiction.
    + unfold parse_opple_data. rewrite Hcmd.
      destruct (Nat.eqb_spec (length data) 20); [contradiction|].
      destruct (Nat.eqb_spec (length data) 11); [contradiction|]. reflexivity.
    + simpl. eexists. rewrite lookup_insert_ne by discriminate.
      apply lookup_insert_eq.
    + intros t buf. unfold OPPLE_read_1.on_decoded, OPPLE_read.on_decoded.
      rewrite insert_nonempty. unfold get.
      rewrite lookup_insert_ne by discriminate. rewrite lookup_insert_eq.
      split; reflexivity.
  - assert (Hch : ~ on_command_channel source_uuid).
    { intros H. apply String.eqb_eq in H. congruence. }
    destruct (String.eqb (lower source_uuid) (lower OPPLE_CHARACTERISTIC_UUID_DATA_RX))
      eqn:Hrx.
    + eapply case_other.
      * tauto.
      * unfold parse_opple_data. rewrite Hcmd, Hrx. reflexivity.
      * simpl. eexists. rewrite !lookup_insert_ne by discriminate.
        apply lookup_insert_eq.
      * intros t buf. unfold OPPLE_read_1.on_decoded, OPPLE_read.on_decoded.
        rewrite insert_nonempty. unfold get.
        rewrite !lookup_insert_ne by discriminate. rewrite lookup_insert_eq.
        split; reflexivity.
    + eapply case_other.
      * tauto.
      * unfold parse_opple_data. rewrite Hcmd, Hrx. reflexivity.
      * simpl. right. reflexivity.
      * intros t buf. split; reflexivity.
Qed.

(** ** The session buffer *)

Lemma primary_sample_nonempty h a b c state :
  bool_decide (primary_sample h a b c state = ∅) = false.
Proof. apply insert_nonempty. Qed.

Lemma auxiliary_sample_nonempty h mv :
  bool_decide (auxiliary_sample h mv = ∅) = false.
Proof. apply insert_nonempty. Qed.

Lemma state_of_light a b c :
  eq_str (VStr (state_of a b c)) "LIGHT_DETECTED" = negb (bool_decide (a = 0 /\ b = 0 /\ c = 0)).
Proof.
  unfold state_of. case_decide as H.
  - rewrite bool_decide_eq_true_2 by exact H. reflexivity.
  - rewrite bool_decide_eq_false_2 by exact H. reflexivity.
Qed.

(** What each handler does with a primary sample. *)
Lemma on_decoded_primary_1 t h a b c buf :
  OPPLE_read_1.on_decoded t (PDict (primary_sample h a b c (state_of a b c))) buf =
    Ok (if bool_decide (a = 0 /\ b = 0 /\ c = 0) then buf
        else buf ++ [OPPLE_read_1.measurement_entry t
                       (primary_sample h a b c "LIGHT_DETECTED")])%list.
Proof.
  unfold OPPLE_read_1.on_decoded. rewrite primary_sample_nonempty.
  change (get (primary_sample h a b c (state_of a b c)) "packet_type")
    with (VStr "20_byte_measurement_or_status").
  change (get (primary_sample h a b c (state_of a b c)) "measurement_state")
    with (VStr (state_of a b c)).
  simpl eq_str at 1. cbv iota. rewrite state_of_light.
  unfold state_of. case_decide as H.
  - rewrite bool_decide_eq_true_2 by exact H. reflexivity.
  - rewrite bool_decide_eq_false_2 by exact H. reflexivity.
Qed.

Lemma on_decoded_primary_0 t h a b c buf :
  OPPLE_read.on_decoded t (PDict (primary_sample h a b c (state_of a b c))) buf =
    Ok (if bool_decide (a = 0 /\ b = 0 /\ c = 0) then buf
        else buf ++ [OPPLE_read.light_entry t
                       (primary_sample h a b c "LIGHT_DETECTED")])%list.
Proof.
  unfold OPPLE_read.on_decoded. rewrite primary_sample_nonempty.
  change (get (primary_sample h a b c (state_of a b c)) "packet_type")
    with (VStr "20_byte_measurement_or_status").
  change (get (primary_sample h a b c (state_of a b c)) "measurement_state")
    with (VStr (state_of a b c)).
  simpl eq_str at 1. cbv iota. rewrite state_of_light.
  unfold state_of. case_decide as H.
  - rewrite bool_decide_eq_true_2 by exact H. reflexivity.
  - rewrite bool_decide_eq_false_2 by exact H. reflexivity.
Qed.

(** What each handler does with an auxiliary sample. *)
Lemma on_decoded_auxiliary_1 t h mv buf :
  OPPLE_read_1.on_decoded t (PDict (auxiliary_sample h mv)) buf =
    Ok (match list.last buf with
        | Some r =>
            if is_none (get r "RawBattery_mV")
            then OPPLE_read_1.set_last_battery (VInt mv) buf
            else buf
        | None => buf
        end).
Proof.
  unfold OPPLE_read_1.on_decoded. rewrite auxiliary_sample_nonempty.
  change (get (auxiliary_sample h mv) "packet_type")
    with (VStr "11_byte_status_or_battery").
  change (get (auxiliary_sample h mv) "RawBattery_mV") with (VInt mv).
  simpl eq_str. cbv iota.
  destruct (list.last buf) as [r|]; [destruct (is_none _)|]; reflexivity.
Qed.

Lemma on_decoded_auxiliary_0 t h mv buf :
  OPPLE_read.on_decoded t (PDict (auxiliary_sample h mv)) buf = Ok buf.
Proof.
  unfold OPPLE_read.on_decoded. rewrite auxiliary_sample_nonempty. reflexivity.
Qed.

Lemma set_last_battery_snoc v (pre : list dict) (r : dict) :
  OPPLE_read_1.set_last_battery v (pre ++ [r]) = pre ++ [<["RawBattery_mV" := v]> r].
Proof.
  unfold OPPLE_read_1.set_last_battery. rewrite last_snoc.
  rewrite length_app. simpl length.
  replace (length pre + 1 - 1)%nat with (length pre + 0)%nat by lia.
  rewrite insert_app_r. reflexivity.
Qed.

(** Neither handler raises, whatever arrives. *)
Lemma notification_handler_1_total t source_uuid data buf :
  exists buf', OPPLE_read_1.notification_handler t source_uuid data buf = Ok buf'.
Proof.
  unfold OPPLE_read_1.notification_handler.
  destruct (parse_cases data source_uuid) as [Hch Hlen|Hch Hlen|r _ Hr _ Hign].
  - rewrite (parse_20 _ _ Hch Hlen). cbn [bind].
    rewrite on_decoded_primary_1. eauto.
  - rewrite (parse_11 _ _ Hch Hlen). cbn [bind].
    rewrite on_decoded_auxiliary_1. eauto.
  - rewrite Hr. cbn [bind]. exists buf. apply Hign.
Qed.

Lemma notification_handler_0_total t source_uuid data buf :
  exists buf', OPPLE_read.notification_handler t source_uuid data buf = Ok buf'.
Proof.
  unfold OPPLE_read.notification_handler.
  destruct (parse_cases data source_uuid) as [Hch Hlen|Hch Hlen|r _ Hr _ Hign].
  - rewrite (parse_20 _ _ Hch Hlen). cbn [bind].
    rewrite on_decoded_primary_0. eauto.
  - rewrite (parse_11 _ _ Hch Hlen). cbn [bind].
    rewrite on_decoded_auxiliary_0. eauto.
  - rewrite Hr. cbn [bind]. exists buf. apply Hign.
Qed.

(** C9. The parser never raises: for every channel identifier and every
    byte sequence it returns a dict carrying a packet type or a string
    tagged [ERROR]/[INFO]; and the notification handler of either script
    returns normally on that frame, so later frames are still processed. *)
Theorem parse_never_raises (data : list Byte.byte) (source_uuid : string) :
  (exists r, parse_opple_data data source_uuid = Ok r /\ explicit_result r)
  /\ (forall e, parse_opple_data data source_uuid <> Raise e)
  /\ (forall t buf, exists buf',
        OPPLE_read.notification_handler t source_uuid data buf = Ok buf')
  /\ (forall t buf, exists buf',
        OPPLE_read_1.notification_handler t source_uuid data buf = Ok buf').
Proof.
  assert (H : exists r, parse_opple_data data source_uuid = Ok r /\ explicit_result r).
  { destruct (parse_cases data source_uuid) as [Hch Hlen|Hch Hlen|r _ Hr Hex _].
    - rewrite (parse_20 _ _ Hch Hlen). eexists. split; [reflexivity|].
      simpl. eexists. reflexivity.
    - rewrite (parse_11 _ _ Hch Hlen). eexists. split; [reflexivity|].
      simpl. eexists. reflexivity.
    - eauto. }
  split; [exact H|]. split.
  - destruct H as (r & Hr & _). rewrite Hr. discriminate.
  - split; intros t buf;
      [apply notification_handler_0_total | apply notification_handler_1_total].
Qed.

(** C4. An auxiliary sample (an 11-byte command-channel frame) reaching the
    handler of OPPLE_read_1.py: when the buffer ends in a record whose
    battery field is still null, that field is set from the sample and
    nothing else changes; when the buffer is empty or its last record
    already has a battery value, the buffer is unchanged. Hence a second
    auxiliary sample arriving right after the first leaves the first value
    in place. *)
Theorem auxiliary_first_write_wins (t source_uuid : string) (data : list Byte.byte)
    (buf : list dict) :
  on_command_channel source_uuid ->
  length data = 11%nat ->
  let mv := VInt (u16_be_at data 8) in
  let handle := OPPLE_read_1.notification_handler t source_uuid data in
  (buf = [] -> handle buf = Ok [])
  /\ (forall pre r, buf = pre ++ [r] -> get r "RawBattery_mV" <> VNone ->
        handle buf = Ok buf)
  /\ (forall pre r, buf = pre ++ [r] -> get r "RawBattery_mV" = VNone ->
        handle buf = Ok (pre ++ [<["RawBattery_mV" := mv]> r])
        /\ forall t' source_uuid' data',
             on_command_channel source_uuid' -> length data' = 11%nat ->
             (buf1 <- handle buf ;;;
              OPPLE_read_1.notification_handler t' source_uuid' data' buf1)
             = Ok (pre ++ [<["RawBattery_mV" := mv]> r])).
Proof.
  intros Hch Hlen mv handle.
  assert (Hh : forall b, handle b =
            Ok (match list.last b with
                | Some r => if is_none (get r "RawBattery_mV")
                            then OPPLE_read_1.set_last_battery mv b else b
                | None => b
                end)).
  { intros b. unfold handle, OPPLE_read_1.notification_handler.
    rewrite (parse_11 _ _ Hch Hlen). cbn [bind]. apply on_decoded_auxiliary_1. }
  split; [intros ->; rewrite Hh; reflexivity|].
  split.
  - intros pre r -> Hr. rewrite Hh, last_snoc.
    destruct (get r "RawBattery_mV"); [contradiction | reflexivity | reflexivity].
  - intros pre r -> Hr.
    assert (H1 : handle (pre ++ [r]) = Ok (pre ++ [<["RawBattery_mV" := mv]> r])).
    { rewrite Hh, last_snoc, Hr. simpl is_none. cbv iota.
      rewrite set_last_battery_snoc. reflexivity. }
    split; [exact H1|].
    intros t' source_uuid' data' Hch' Hlen'. rewrite H1. cbn [bind].
    unfold OPPLE_read_1.notification_handler.
    rewrite (parse_11 _ _ Hch' Hlen'). cbn [bind].
    rewrite on_decoded_auxiliary_1, last_snoc.
    unfold get at 1. rewrite lookup_insert_eq. reflexivity.
Qed.

Definition example_record : dict :=
  OPPLE_read_1.measurement_entry "12:00:00.000"
    (primary_sample (hex example_frame) 11 4274 5762 "LIGHT_DETECTED").

Lemma auxiliary_first_write_wins_witness :
  (buf1 <- OPPLE_read_1.notification_handler "12:00:00.100"
             OPPLE_CHARACTERISTIC_UUID_COMMAND_TX example_battery_frame
             ([] ++ [example_record]) ;;;
   OPPLE_read_1.notification_handler "12:00:00.200"
     OPPLE_CHARACTERISTIC_UUID_COMMAND_TX
     [x00; x00; x0b; x00; x13; x00; x00; x02; x0f; xa0; x00] buf1)
  = Ok ([] ++ [<["RawBattery_mV" := VInt (u16_be_at example_battery_frame 8)]>
                 example_record]).
Proof.
  apply (auxiliary_first_write_wins "12:00:00.100"
           OPPLE_CHARACTERISTIC_UUID_COMMAND_TX example_battery_frame
           ([] ++ [example_record]) eq_refl eq_refl); reflexivity.
Defined.

(** *** Which frames reach the buffer *)

Definition raw_fields (r : dict) : pyval * pyval * pyval * pyval :=
  (get r "raw_hex", get r "RawVal_1", get r "RawVal_2", get r "RawVal_3").

(** A record whose three raw fields are all zero: what a [DARK] sample
    would have left behind. *)
Definition dark_record (r : dict) : Prop :=
  get r "RawVal_1" = VInt 0 /\ get r "RawVal_2" = VInt 0 /\ get r "RawVal_3" = VInt 0.

(** The frames the classifier labels [LIGHT_DETECTED]. *)
Definition is_light_frame (n : notification) : bool :=
  String.eqb (lower (n_uuid n)) (lower OPPLE_CHARACTERISTIC_UUID_COMMAND_TX)
  && Nat.eqb (length (n_data n)) 20
  && negb (bool_decide (u16_le_at (n_data n) 14 = 0 /\ u16_le_at (n_data n) 16 = 0
                        /\ u16_le_at (n_data n) 18 = 0)).

Definition frame_fields (n : notification) : pyval * pyval * pyval * pyval :=
  (VStr (hex (n_data n)), VInt (u16_le_at (n_data n) 14),
   VInt (u16_le_at (n_data n) 16), VInt (u16_le_at (n_data n) 18)).

Definition light_sample (n : notification) : dict :=
  primary_sample (hex (n_data n)) (u16_le_at (n_data n) 14) (u16_le_at (n_data n) 16)
    (u16_le_at (n_data n) 18) "LIGHT_DETECTED".

Lemma raw_fields_set_last_battery v (buf : list dict) :
  map raw_fields (OPPLE_read_1.set_last_battery v buf) = map raw_fields buf.
Proof.
  destruct buf as [|r pre _] using rev_ind; [reflexivity|].
  rewrite set_last_battery_snoc, !map_app. f_equal. simpl. f_equal.
  unfold raw_fields, get. rewrite !lookup_insert_ne by discriminate. reflexivity.
Qed.

Lemma is_light_frame_true (n : notification) :
  is_light_frame n = true <->
  on_command_channel (n_uuid n) /\ length (n_data n) = 20%nat
  /\ ~ (u16_le_at (n_data n) 14 = 0 /\ u16_le_at (n_data n) 16 = 0
        /\ u16_le_at (n_data n) 18 = 0).
Proof.
  unfold is_light_frame, on_command_channel.
  rewrite !andb_true_iff, negb_true_iff, bool_decide_eq_false.
  rewrite String.eqb_eq, Nat.eqb_eq. tauto.
Qed.

(** One notification through the handler of OPPLE_read_1.py. *)
Lemma on_notification_1_step (buf : list dict) (n : notification) :
  (is_light_frame n = true
   /\ OPPLE_read_1.on_notification buf n =
        buf ++ [OPPLE_read_1.measurement_entry (n_time n) (light_sample n)])
  \/ (is_light_frame n = false
      /\ map raw_fields (OPPLE_read_1.on_notification buf n) = map raw_fields buf).
Proof.
  unfold OPPLE_read_1.on_notification, OPPLE_read_1.notification_handler.
  destruct (parse_cases (n_data n) (n_uuid n)) as [Hch Hlen|Hch Hlen|r Hno Hr _ Hign].
  - rewrite (parse_20 _ _ Hch Hlen). cbn [bind]. rewrite on_decoded_primary_1.
    case_bool_decide as Hz.
    + right. split; [|reflexivity].
      apply not_true_is_false. rewrite is_light_frame_true. tauto.
    + left. split; [|reflexivity]. apply is_light_frame_true. tauto.
  - right. split.
    + apply not_true_is_false. rewrite is_light_frame_true. lia.
    + rewrite (parse_11 _ _ Hch Hlen). cbn [bind]. rewrite on_decoded_auxiliary_1.
      destruct (list.last buf) as [r|]; [|reflexivity].
      destruct (is_none _); [apply raw_fields_set_last_battery | reflexivity].
  - right. split.
    + apply not_true_is_false. rewrite is_light_frame_true. tauto.
    + rewrite Hr. cbn [bind]. rewrite (proj1 (Hign _ _)). reflexivity.
Qed.

(** One notification through the handler of OPPLE_read.py. *)
Lemma on_notification_0_step (buf : list dict) (n : notification) :
  (is_light_frame n = true
   /\ OPPLE_read.on_notification buf n =
        buf ++ [OPPLE_read.light_entry (n_time n) (light_sample n)])
  \/ (is_light_frame n = false /\ OPPLE_read.on_notification buf n = buf).
Proof.
  unfold OPPLE_read.on_notification, OPPLE_read.notification_handler.
  destruct (parse_cases (n_data n) (n_uuid n)) as [Hch Hlen|Hch Hlen|r Hno Hr _ Hign].
  - rewrite (parse_20 _ _ Hch Hlen). cbn [bind]. rewrite on_decoded_primary_0.
    case_bool_decide as Hz.
    + right. split; [|reflexivity].
      apply not_true_is_false. rewrite is_light_frame_true. tauto.
    + left. split; [|reflexivity]. apply is_light_frame_true. tauto.
  - right. split.
    + apply not_true_is_false. rewrite is_light_frame_true. lia.
    + rewrite (parse_11 _ _ Hch Hlen). cbn [bind]. rewrite on_decoded_auxiliary_0.
      reflexivity.
  - right. split.
    + apply not_true_is_false. rewrite is_light_frame_true. tauto.
    + rewrite Hr. cbn [bind]. rewrite (proj2 (Hign _ _)). reflexivity.
Qed.

Lemma deliver_1_fields (ns : list notification) (buf : list dict) :
  map raw_fields (OPPLE_read_1.deliver ns buf) =
    map raw_fields buf ++ map frame_fields (List.filter is_light_frame ns).
Proof.
  revert buf. induction ns as [|n ns IH]; intros buf.
  - simpl. rewrite app_nil_r. reflexivity.
  - unfold OPPLE_read_1.deliver in *. simpl foldl. rewrite IH. simpl List.filter.
    destruct (on_notification_1_step buf n) as [[Hl Hstep]|[Hl Hstep]]; rewrite Hl, Hstep.
    + rewrite map_app, <- app_assoc. reflexivity.
    + reflexivity.
Qed.

Lemma deliver_0_entries (ns : list notification) (buf : list dict) :
  OPPLE_read.deliver ns buf =
    buf ++ map (fun n => OPPLE_read.light_entry (n_time n) (light_sample n))
             (List.filter is_light_frame ns).
Proof.
  revert buf. induction ns as [|n ns IH]; intros buf.
  - simpl. rewrite app_nil_r. reflexivity.
  - unfold OPPLE_read.deliver in *. simpl foldl. rewrite IH. simpl List.filter.
    destruct (on_notification_0_step buf n) as [[Hl Hstep]|[Hl Hstep]]; rewrite Hl, Hstep.
    + rewrite <- app_assoc. reflexivity.
    + reflexivity.
Qed.

Lemma light_frame_not_dark (n : notification) (r : dict) :
  is_light_frame n = true -> raw_fields r = frame_fields n -> ~ dark_record r.
Proof.
  intros Hl Hr [H1 [H2 H3]]. apply is_light_frame_true in Hl.
  destruct Hl as (_ & _ & Hnz). apply Hnz.
  unfold raw_fields, frame_fields in Hr. rewrite H1, H2, H3 in Hr.
  inversion Hr. auto.
Qed.

(** C5. Whatever sequence of frames a phase receives, starting from the
    buffer cleared at phase start, the buffer holds exactly one record per
    frame classified [LIGHT_DETECTED], in arrival order, with that frame's
    hex dump and raw fields; no record of it has all three raw fields zero.
    This holds for both scripts; in OPPLE_read.py every record moreover
    carries the state [LIGHT_DETECTED]. *)
Theorem dark_samples_never_buffered (ns : list notification) :
  let lights := List.filter is_light_frame ns in
  map raw_fields (OPPLE_read_1.deliver ns []) = map frame_fields lights
  /\ map raw_fields (OPPLE_read.deliver ns []) = map frame_fields lights
  /\ Forall (fun r => ~ dark_record r) (OPPLE_read_1.deliver ns [])
  /\ Forall (fun r => ~ dark_record r
                      /\ get r "measurement_state" = VStr "LIGHT_DETECTED")
       (OPPLE_read.deliver ns []).
Proof.
  intros lights.
  assert (Hlights : Forall (fun n => is_light_frame n = true) lights).
  { apply List.Forall_forall. intros n Hn. apply List.filter_In in Hn. tauto. }
  assert (H1 : map raw_fields (OPPLE_read_1.deliver ns []) = map frame_fields lights)
    by apply deliver_1_fields.
  assert (H0 : OPPLE_read.deliver ns [] =
                 map (fun n => OPPLE_read.light_entry (n_time n) (light_sample n)) lights)
    by apply deliver_0_entries.
  split; [exact H1|]. split.
  { rewrite H0, map_map. reflexivity. }
  split.
  - revert H1 Hlights. generalize (OPPLE_read_1.deliver ns []) as buf.
    generalize lights as ls.
    induction ls as [|n ls IH]; intros [|r buf] Heq Hls;
      try discriminate; constructor.
    + apply (light_frame_not_dark n);
        [exact (List.Forall_inv Hls) | simpl in Heq; congruence].
    + apply IH; [simpl in Heq; congruence | exact (List.Forall_inv_tail Hls)].
  - rewrite H0. apply List.Forall_map.
    refine (List.Forall_impl _ _ Hlights).
    intros n Hn. split; [|reflexivity].
    eapply light_frame_not_dark; [exact Hn | reflexivity].
Qed.

(** ** Export *)

Definition empty_fs : filesystem := {| files := ∅; unwritable := ∅ |}.

(** C6 as stated fails: after exporting an empty buffer to a fresh path
    there is no file holding just the header row (there is no file). *)
Lemma save_empty_buffer_no_header_file :
  ~ (files (save_measurements_to_csv "measurements_no_filter.csv" [] empty_fs)
       !! "measurements_no_filter.csv" = Some [fieldnames]).
Proof. vm_compute. discriminate. Qed.

(** C6, amended. Exporting an empty buffer returns before the file is
    opened: the file system is left exactly as it was (no file, no header
    row) and nothing is raised. A buffer with at least one record is written
    as the header row followed by one row per record, unless the path cannot
    be opened, in which case the file system is again left as it was. *)
Theorem save_empty_buffer_writes_nothing (filename : string) (fs : filesystem) :
  save_measurements_to_csv filename [] fs = fs
  /\ forall r rest,
       files (save_measurements_to_csv filename (r :: rest) fs) !! filename =
         if bool_decide (filename ∈ unwritable fs) then files fs !! filename
         else Some (fieldnames :: clean_row r :: map clean_row rest).
Proof.
  split; [reflexivity|].
  intros r rest. unfold save_measurements_to_csv.
  case_bool_decide; [reflexivity|]. simpl. apply lookup_insert_eq.
Qed.

(** ** Aggregate statistics *)

(** C8 as stated fails on the empty list: no field is reported as null,
    the result has no entry at all. *)
Lemma calculate_average_empty_reports_nothing :
  ~ (exists avg, calculate_average [] = Ok avg /\ avg !! "RawVal_1" = Some None).
Proof.
  intros (avg & Havg & Hk). simpl in Havg. inversion Havg; subst avg.
  rewrite lookup_empty in Hk. discriminate.
Qed.

(** The non-null values of a field across the records. *)
Definition field_values (key : string) (measurements : list dict) : list Z :=
  omap (fun m : dict => match m !! key with Some (VInt n) => Some n | _ => None end)
    measurements.

Definition sum_list (l : list Z) : Z := fold_right Z.add 0 l.

(** Arithmetic mean, null when there is nothing to average. *)
Definition mean (l : list Z) : option Qc :=
  match l with
  | [] => None
  | _ => Some (Qc_of_Z (sum_list l) / Qc_of_Z (Z.of_nat (length l)))%Qc
  end.

(** A session record: each averaged field is absent, null or an int. *)
Definition numeric_record (m : dict) : Prop :=
  forall key, In key keys_to_average ->
    match m !! key with Some (VStr _) => False | _ => True end.

Lemma py_sum_ints (l : list Z) (acc : Z) :
  py_sum (map VInt l) acc = Ok (acc + sum_list l).
Proof.
  revert acc. induction l as [|n l IH]; intros acc; simpl.
  - f_equal. lia.
  - rewrite IH. f_equal. lia.
Qed.

Lemma values_for_ints (key : string) (measurements : list dict) :
  In key keys_to_average ->
  Forall numeric_record measurements ->
  values_for key measurements = map VInt (field_values key measurements).
Proof.
  intros Hkey Hnum. induction Hnum as [|m ms Hm _ IH]; [reflexivity|].
  unfold values_for, field_values, omap in *. simpl. specialize (Hm key Hkey).
  destruct (m !! key) as [[|n|s]|]; simpl; try contradiction;
    rewrite IH; reflexivity.
Qed.

(** A record that can be averaged: each averaged field is absent, null, or
    an int small enough for the quotient to be a float. The unsigned 16-bit
    values of a session record are far inside that range. *)
Definition averageable_record (m : dict) : Prop :=
  forall key, In key keys_to_average ->
    match m !! key with
    | Some (VStr _) => False
    | Some (VInt n) => Z.abs n < float_overflow_bound
    | _ => True
    end.

Lemma averageable_numeric (measurements : list dict) :
  Forall averageable_record measurements -> Forall numeric_record measurements.
Proof.
  intros H. refine (List.Forall_impl _ _ H). intros m Hm key Hkey.
  specialize (Hm key Hkey). destruct (m !! key) as [[| |]|]; tauto.
Qed.

Lemma field_values_in_range (key : string) (measurements : list dict) :
  In key keys_to_average ->
  Forall averageable_record measurements ->
  Forall (fun x => - (float_overflow_bound - 1) <= x <= float_overflow_bound - 1)
    (field_values key measurements).
Proof.
  intros Hkey Hms. induction Hms as [|m ms Hm _ IH]; [constructor|].
  unfold field_values, omap in *. simpl. specialize (Hm key Hkey).
  destruct (m !! key) as [[|n|s]|]; simpl; try exact IH.
  constructor; [lia | exact IH].
Qed.

Lemma sum_list_bounds (l : list Z) (lo hi : Z) :
  Forall (fun x => lo <= x <= hi) l ->
  lo * Z.of_nat (length l) <= sum_list l <= hi * Z.of_nat (length l).
Proof.
  unfold sum_list. induction 1 as [|x l Hx _ IH]; [simpl; lia|].
  cbn [fold_right length]. rewrite Nat2Z.inj_succ. lia.
Qed.

(** Within the float range the division returns the quotient. *)
Lemma true_div_in_range (l : list Z) :
  l <> [] ->
  Forall (fun x => - (float_overflow_bound - 1) <= x <= float_overflow_bound - 1) l ->
  true_div (sum_list l) (length l)
    = Ok (Qc_of_Z (sum_list l) / Qc_of_Z (Z.of_nat (length l)))%Qc.
Proof.
  intros Hne Hl. pose proof (sum_list_bounds l _ _ Hl) as Hsum.
  unfold true_div. destruct l as [|x l]; [contradiction|].
  cbn [length Nat.eqb].
  assert (Hlen : 0 < Z.of_nat (length (x :: l))) by (simpl length; lia).
  destruct (Z.leb_spec (float_overflow_bound * Z.of_nat (S (length l)))
              (Z.abs (sum_list (x :: l)))) as [Hover|_]; [|reflexivity].
  exfalso. simpl length in Hsum, Hlen.
  remember (Z.of_nat (S (length l))) as n. remember (sum_list (x :: l)) as t.
  remember float_overflow_bound as B. nia.
Qed.

(** The loop over the keys, one insertion per key. *)
Lemma average_keys_spec (keys : list string) (measurements : list dict)
    (avg_data : gmap string (option Qc)) :
  (forall key, In key keys -> In key keys_to_average) ->
  Forall averageable_record measurements ->
  average_keys keys measurements avg_data =
    Ok (foldl (fun a key => <[key := mean (field_values key measurements)]> a)
          avg_data keys).
Proof.
  intros Hkeys Hav. pose proof (averageable_numeric _ Hav) as Hnum. revert avg_data.
  induction keys as [|key keys IH]; intros avg_data; [reflexivity|].
  simpl. rewrite (values_for_ints key measurements) by (auto using in_eq).
  assert (IH' := IH (fun k Hk => Hkeys k (in_cons _ _ _ Hk))).
  pose proof (field_values_in_range key measurements (Hkeys key (in_eq _ _)) Hav)
    as Hrange.
  destruct (field_values key measurements) as [|n l] eqn:Hv.
  - simpl. apply IH'.
  - cbn [map]. change (VInt n :: map VInt l) with (map VInt (n :: l)).
    rewrite py_sum_ints. cbn [bind]. rewrite length_map, Z.add_0_l.
    rewrite true_div_in_range by (try discriminate; exact Hrange).
    cbn [bind]. rewrite IH'. reflexivity.
Qed.

(** C8, amended. For the empty list nothing is reported: the result is the
    empty mapping. For a non-empty list of session records, every averaged
    field is reported; its value is the arithmetic mean of the field's
    non-null values (records where it is null or absent are left out), and
    null when no record has a value for it. *)
Theorem calculate_average_mean (measurements : list dict) :
  Forall averageable_record measurements ->
  exists avg,
    calculate_average measurements = Ok avg
    /\ (measurements = [] -> avg = ∅)
    /\ (measurements <> [] ->
        (forall key, In key keys_to_average ->
           avg !! key = Some (mean (field_values key measurements)))
        /\ (forall key, In key keys_to_average ->
              field_values key measurements = [] -> avg !! key = Some None)
        /\ (forall key, ~ In key keys_to_average -> avg !! key = None)).
Proof.
  intros Hav. destruct measurements as [|m ms].
  { exists ∅. split; [reflexivity|]. split; [reflexivity | intros H; contradiction]. }
  change (calculate_average (m :: ms))
    with (average_keys keys_to_average (m :: ms) ∅).
  revert Hav. generalize (m :: ms) (@nil_cons _ m ms). intros l Hne Hav.
  rewrite average_keys_spec by auto. eexists. split; [reflexivity|].
  split; [intros ->; contradiction|]. intros _.
  assert (Hlk : forall key, In key keys_to_average ->
            foldl (fun a k => <[k := mean (field_values k l)]> a)
              (∅ : gmap string (option Qc)) keys_to_average !! key
            = Some (mean (field_values key l))).
  { intros key Hkey. simpl in Hkey.
    destruct Hkey as [<-|[<-|[<-|[<-|[]]]]]; simpl;
      repeat (rewrite lookup_insert_ne by discriminate); apply lookup_insert_eq. }
  split; [exact Hlk|]. split.
  - intros key Hkey Hnil. rewrite (Hlk key Hkey), Hnil. reflexivity.
  - intros key Hkey. simpl.
    rewrite !lookup_insert_ne; [apply lookup_empty | | | |];
      intros <-; apply Hkey; simpl; tauto.
Qed.

(** Buffers built by the handler of OPPLE_read.py are lists of session
    records in the sense above. *)
Lemma deliver_0_numeric (ns : list notification) :
  Forall numeric_record (OPPLE_read.deliver ns []).
Proof.
  rewrite deliver_0_entries. simpl app. apply List.Forall_map.
  apply List.Forall_forall. intros n _ key Hkey. simpl in Hkey.
  destruct Hkey as [<-|[<-|[<-|[<-|[]]]]]; exact I.
Qed.

Definition example_measurements : list dict :=
  OPPLE_read.deliver
    [Notification "12:00:00.000" OPPLE_CHARACTERISTIC_UUID_COMMAND_TX example_frame;
     Notification "12:00:00.500" OPPLE_CHARACTERISTIC_UUID_COMMAND_TX
       example_battery_frame;
     Notification "12:00:01.000" OPPLE_CHARACTERISTIC_UUID_COMMAND_TX
       (example_header ++ [x0c; x00; xb4; x10; x80; x16])]
    [].

(** They are also well inside the float range. *)
Lemma deliver_0_averageable (ns : list notification) :
  Forall averageable_record (OPPLE_read.deliver ns []).
Proof.
  rewrite deliver_0_entries. simpl app. apply List.Forall_map.
  apply List.Forall_forall. intros n _ key Hkey. simpl in Hkey.
  assert (Hr : forall off, Z.abs (u16_le_at (n_data n) off) < float_overflow_bound).
  { intros off. pose proof (u16_le_at_range (n_data n) off).
    assert (65536 < float_overflow_bound) by (vm_compute; reflexivity). lia. }
  set (entry := OPPLE_read.light_entry (n_time n) (light_sample n)).
  assert (H1 : entry !! "RawVal_1" = Some (VInt (u16_le_at (n_data n) 14)))
    by reflexivity.
  assert (H2 : entry !! "RawVal_2" = Some (VInt (u16_le_at (n_data n) 16)))
    by reflexivity.
  assert (H3 : entry !! "RawVal_3" = Some (VInt (u16_le_at (n_data n) 18)))
    by reflexivity.
  assert (H4 : entry !! "RawBattery_mV" = None) by reflexivity.
  destruct Hkey as [<-|[<-|[<-|[<-|[]]]]].
  - rewrite H1. apply Hr.
  - rewrite H2. apply Hr.
  - rewrite H3. apply Hr.
  - rewrite H4. exact I.
Qed.

Lemma calculate_average_mean_witness :
  exists avg,
    calculate_average example_measurements = Ok avg
    /\ (example_measurements = [] -> avg = ∅)
    /\ (example_measurements <> [] ->
        (forall key, In key keys_to_average ->
           avg !! key = Some (mean (field_values key example_measurements)))
        /\ (forall key, In key keys_to_average ->
              field_values key example_measurements = [] -> avg !! key = Some None)
        /\ (forall key, ~ In key keys_to_average -> avg !! key = None)).
Proof.
  apply (calculate_average_mean example_measurements).
  unfold example_measurements. apply deliver_0_averageable.
Defined.

(** ** The phase driver *)

Section PhaseDriverFacts.

Variable env : nat -> await_result.

(** The notifications delivered during the first [p] awaits of the loop. *)
Fixpoint arrivals (p : nat) : list notification :=
  match p with
  | O => []
  | S q => arrivals q ++ delivered (env q)
  end.


Lemma deliver_app (ns1 ns2 : list notification) (buf : list dict) :
  OPPLE_read_1.deliver (ns1 ++ ns2) buf =
    OPPLE_read_1.deliver ns2 (OPPLE_read_1.deliver ns1 buf).
Proof. unfold OPPLE_read_1.deliver. apply foldl_app. Qed.

(** The loop is about to start iteration [j], every await so far having
    returned normally. *)
Definition before_iteration (fs : filesystem) (j : nat) (st : phase_state) : Prop :=
  current_measurements st = OPPLE_read_1.deliver (arrivals (4 * j)) []
  /\ commands st =
       concat (replicate j [OPPLE_COMMAND_START_MEASUREMENT;
                            OPPLE_COMMAND_STOP_MEASUREMENT])
  /\ phase_files st = fs.

Lemma poll_ok (fs : filesystem) (j : nat) (st : phase_state) :
  before_iteration fs j st ->
  (forall p, (4 * j <= p < 4 * j + 4)%nat -> raised (env p) = None) ->
  exists st', poll env j st = (st', Ok tt) /\ before_iteration fs (S j) st'.
Proof.
  intros (Hcm & Hcmd & Hfs) Hok.
  unfold poll, and_then, write_gatt_char, sleep, receive, outcome.
  rewrite (Hok (4 * j)%nat), (Hok (4 * j + 1)%nat), (Hok (4 * j + 2)%nat),
    (Hok (4 * j + 3)%nat) by lia.
  eexists. split; [reflexivity|]. unfold before_iteration.
  cbn [current_measurements commands phase_files].
  split; [|split; [|exact Hfs]].
  - replace (4 * S j)%nat with (S (S (S (S (4 * j))))) by lia.
    cbn [arrivals]. rewrite !deliver_app, <- Hcm.
    replace (4 * j + 1)%nat with (S (4 * j)) by lia.
    replace (4 * j + 2)%nat with (S (S (4 * j))) by lia.
    replace (4 * j + 3)%nat with (S (S (S (4 * j)))) by lia.
    reflexivity.
  - rewrite Hcmd, <- app_assoc.
    replace (S j) with (j + 1)%nat by lia.
    rewrite replicate_add, concat_app. reflexivity.
Qed.




End PhaseDriverFacts.

(** A phase in which the first iteration completes, delivering a light
    frame and then a battery frame, and the START write of the second
    iteration fails. *)
Definition example_env (p : nat) : await_result :=
  match p with
  | 1%nat =>
      Await [Notification "12:00:00.400" OPPLE_CHARACTERISTIC_UUID_COMMAND_TX
               example_frame] None
  | 2%nat =>
      Await [Notification "12:00:00.950" OPPLE_CHARACTERISTIC_UUID_COMMAND_TX
               example_battery_frame] None
  | 4%nat => Await [] (Some (OtherException "Not connected"))
  | _ => Await [] None
  end.


(** ** Worked scenarios *)

Example output_filename_no_filter :
  output_filename "No Filter" = "measurements_no_filter.csv".
Proof. reflexivity. Qed.

(** The phase above exports one row: the light frame of the first
    iteration with the battery value that followed it. *)
Example example_phase_export :
  let st := run_measurement_phase example_env "No Filter" 15 empty_fs in
  commands st = [OPPLE_COMMAND_START_MEASUREMENT; OPPLE_COMMAND_STOP_MEASUREMENT;
                 OPPLE_COMMAND_START_MEASUREMENT]
  /\ files (phase_files st) !! "measurements_no_filter.csv" =
       Some [fieldnames;
             ["12:00:00.400"; "80001f0000000000020000000a010b00b2108216";
              "11"; "4274"; "5762"; "10000"; ""; ""; ""; ""; ""; ""; ""; ""]].
Proof. vm_compute. split; reflexivity. Qed.

Definition dark_frame : list Byte.byte :=
  example_header ++ [x00; x00; x00; x00; x00; x00].

(** Light, battery, dark, light: two records, the first with its battery
    field set, the second without. *)
Example end_to_end_scenario :
  map (fun r => (get r "RawVal_1", get r "RawBattery_mV"))
    (OPPLE_read_1.deliver
       [Notification "t1" OPPLE_CHARACTERISTIC_UUID_COMMAND_TX example_frame;
        Notification "t2" OPPLE_CHARACTERISTIC_UUID_COMMAND_TX example_battery_frame;
        Notification "t3" OPPLE_CHARACTERISTIC_UUID_COMMAND_TX dark_frame;
        Notification "t4" OPPLE_CHARACTERISTIC_UUID_COMMAND_TX example_frame] [])
  = [(VInt 11, VInt 10000); (VInt 11, VNone)].
Proof. vm_compute. reflexivity. Qed.

(** A frame truncated in transit is not a 20-byte frame: it is reported as
    an unrecognised length, not as a decode failure. *)
Example truncated_frame_unrecognised :
  (p <- parse_opple_data (take 17 example_frame) OPPLE_CHARACTERISTIC_UUID_COMMAND_TX ;;;
   Ok (match p with PDict d => get d "packet_type" | PStr s => VStr s end))
  = Ok (VStr "UNKNOWN_LEN_FROM_COMMAND_CHAR (17B)").
Proof. vm_compute. reflexivity. Qed.

(** A reported statistic as a plain fraction. *)
Definition as_fraction (o : option (option Qc)) : option (option Q) :=
  match o with
  | Some (Some q) => Some (Some (this q))
  | Some None => Some None
  | None => None
  end.

(** Two records with RawVal_1 11 and 12, RawVal_2 4274 and 4276, and no
    battery value: means 23/2 and 4275, and null. *)
Example calculate_average_example :
  (avg <- calculate_average example_measurements ;;;
   Ok (as_fraction (avg !! "RawVal_1"), as_fraction (avg !! "RawVal_2"),
       as_fraction (avg !! "RawBattery_mV")))
  = Ok (Some (Some (23 # 2)%Q), Some (Some (4275 # 1)%Q), Some None).
Proof. vm_compute. reflexivity. Qed.

(** * Further properties of the code *)

(** ** The parser beyond the two decoded shapes *)

Definition on_data_channel (source_uuid : string) : Prop :=
  lower source_uuid = lower OPPLE_CHARACTERISTIC_UUID_DATA_RX.

(** The packet type of a parser result, when it is a dict. *)
Definition packet_type (r : result parsed_result) : option pyval :=
  match r with
  | Ok (PDict d) => d !! "packet_type"
  | _ => None
  end.

(** The dict returned for a command-channel frame of any other length. *)
Definition unknown_length_frame (data : list Byte.byte) : dict :=
  list_to_map
    [("packet_type",
      VStr ("UNKNOWN_LEN_FROM_COMMAND_CHAR ("
            +:+ str_of_int (Z.of_nat (length data)) +:+ "B)"));
     ("raw_hex", VStr (hex data))].

(** The dict returned for any data-channel frame. *)
Definition rx_candidate_frame (data : list Byte.byte) : dict :=
  list_to_map
    [("packet_type", VStr "MEASUREMENT_DATA_CANDIDATE_FROM_RX_CHAR");
     ("raw_hex", VStr (hex data));
     ("data_length", VInt (Z.of_nat (length data)))].

Lemma data_channel_not_command (source_uuid : string) :
  on_data_channel source_uuid -> ~ on_command_channel source_uuid.
Proof.
  unfold on_data_channel, on_command_channel. intros -> H. discriminate H.
Qed.

Lemma parse_other_length (data : list Byte.byte) (source_uuid : string) :
  on_command_channel source_uuid ->
  length data <> 20%nat -> length data <> 11%nat ->
  parse_opple_data data source_uuid = Ok (PDict (unknown_length_frame data)).
Proof.
  intros Hch H20 H11. unfold parse_opple_data.
  apply String.eqb_eq in Hch. rewrite Hch.
  destruct (Nat.eqb_spec (length data) 20); [contradiction|].
  destruct (Nat.eqb_spec (length data) 11); [contradiction|].
  unfold unknown_length_frame.
  generalize ("UNKNOWN_LEN_FROM_COMMAND_CHAR ("
              +:+ str_of_int (Z.of_nat (length data)) +:+ "B)") (hex data).
  intros ty h. reflexivity.
Qed.

Lemma parse_data_channel (data : list Byte.byte) (source_uuid : string) :
  on_data_channel source_uuid ->
  parse_opple_data data source_uuid = Ok (PDict (rx_candidate_frame data)).
Proof.
  intros Hrx. unfold parse_opple_data.
  destruct (String.eqb_spec (lower source_uuid)
              (lower OPPLE_CHARACTERISTIC_UUID_COMMAND_TX)) as [Hc|_].
  { exfalso. exact (data_channel_not_command _ Hrx Hc). }
  apply String.eqb_eq in Hrx. rewrite Hrx. unfold rx_candidate_frame.
  generalize (hex data) (Z.of_nat (length data)). intros h len.
  reflexivity.
Qed.

Lemma parse_unhandled_channel (data : list Byte.byte) (source_uuid : string) :
  ~ on_command_channel source_uuid -> ~ on_data_channel source_uuid ->
  parse_opple_data data source_uuid =
    Ok (PStr ("INFO: Data from unhandled characteristic " +:+ source_uuid
              +:+ " (Length " +:+ str_of_int (Z.of_nat (length data)) +:+ "): "
              +:+ hex data)).
Proof.
  intros Hc Hrx. unfold parse_opple_data.
  destruct (String.eqb_spec (lower source_uuid)
              (lower OPPLE_CHARACTERISTIC_UUID_COMMAND_TX)); [contradiction|].
  destruct (String.eqb_spec (lower source_uuid)
              (lower OPPLE_CHARACTERISTIC_UUID_DATA_RX)); [contradiction|].
  reflexivity.
Qed.

(** X1. The record variant is chosen by channel and byte length alone: two
    frames of equal length on the same channel (compared without regard to
    letter case) get the same packet type, whatever their payload, and are
    either both dicts or both strings. *)
Theorem variant_by_channel_and_length (data data' : list Byte.byte)
    (source_uuid source_uuid' : string) :
  lower source_uuid = lower source_uuid' ->
  length data = length data' ->
  packet_type (parse_opple_data data source_uuid)
    = packet_type (parse_opple_data data' source_uuid').
Proof.
  intros Hu Hlen.
  destruct (String.eqb_spec (lower source_uuid)
              (lower OPPLE_CHARACTERISTIC_UUID_COMMAND_TX)) as [Hc|Hc].
  - assert (Hc' : on_command_channel source_uuid') by (unfold on_command_channel; congruence).
    destruct (Nat.eq_dec (length data) 20%nat) as [H20|H20].
    { rewrite (parse_20 data _ Hc H20), (parse_20 data' _ Hc') by congruence.
      reflexivity. }
    destruct (Nat.eq_dec (length data) 11%nat) as [H11|H11].
    { rewrite (parse_11 data _ Hc H11), (parse_11 data' _ Hc') by congruence.
      reflexivity. }
    rewrite (parse_other_length data _ Hc H20 H11),
      (parse_other_length data' _ Hc') by congruence.
    unfold unknown_length_frame. rewrite Hlen. reflexivity.
  - assert (Hc' : ~ on_command_channel source_uuid') by (unfold on_command_channel; congruence).
    destruct (String.eqb_spec (lower source_uuid)
                (lower OPPLE_CHARACTERISTIC_UUID_DATA_RX)) as [Hr|Hr].
    + assert (Hr' : on_data_channel source_uuid') by (unfold on_data_channel; congruence).
      rewrite (parse_data_channel data _ Hr), (parse_data_channel data' _ Hr').
      reflexivity.
    + assert (Hr' : ~ on_data_channel source_uuid') by (unfold on_data_channel; congruence).
      rewrite (parse_unhandled_channel data _ Hc Hr),
        (parse_unhandled_channel data' _ Hc' Hr').
      reflexivity.
Qed.

Lemma variant_by_channel_and_length_witness :
  packet_type (parse_opple_data example_frame "6E400003-B5A3-F393-E0A9-E50E24DCCA9E")
    = packet_type (parse_opple_data dark_frame OPPLE_CHARACTERISTIC_UUID_COMMAND_TX).
Proof.
  apply (variant_by_channel_and_length example_frame dark_frame
           "6E400003-B5A3-F393-E0A9-E50E24DCCA9E"
           OPPLE_CHARACTERISTIC_UUID_COMMAND_TX); reflexivity.
Defined.

(** X2. On the two known channels the whole parser result is independent
    of the letter case of the characteristic identifier. *)
Theorem parse_channel_case_insensitive (data : list Byte.byte)
    (source_uuid source_uuid' : string) :
  lower source_uuid = lower source_uuid' ->
  on_command_channel source_uuid \/ on_data_channel source_uuid ->
  parse_opple_data data source_uuid = parse_opple_data data source_uuid'.
Proof.
  intros Hu [Hc|Hr].
  - assert (Hc' : on_command_channel source_uuid') by (unfold on_command_channel; congruence).
    destruct (Nat.eq_dec (length data) 20%nat) as [H20|H20].
    { rewrite (parse_20 data _ Hc H20), (parse_20 data _ Hc' H20). reflexivity. }
    destruct (Nat.eq_dec (length data) 11%nat) as [H11|H11].
    { rewrite (parse_11 data _ Hc H11), (parse_11 data _ Hc' H11). reflexivity. }
    rewrite (parse_other_length data _ Hc H20 H11),
      (parse_other_length data _ Hc' H20 H11). reflexivity.
  - assert (Hr' : on_data_channel source_uuid') by (unfold on_data_channel; congruence).
    rewrite (parse_data_channel data _ Hr), (parse_data_channel data _ Hr').
    reflexivity.
Qed.

Lemma parse_channel_case_insensitive_witness :
  parse_opple_data example_frame OPPLE_CHARACTERISTIC_UUID_COMMAND_TX
    = parse_opple_data example_frame "6E400003-B5A3-F393-E0A9-E50E24DCCA9E".
Proof.
  apply (parse_channel_case_insensitive example_frame
           OPPLE_CHARACTERISTIC_UUID_COMMAND_TX
           "6E400003-B5A3-F393-E0A9-E50E24DCCA9E"); [reflexivity|].
  left. reflexivity.
Defined.

(** ** The handlers as functions of the kind of frame *)

(** The frames the classifier decodes as battery telemetry. *)
Definition is_aux_frame (n : notification) : bool :=
  String.eqb (lower (n_uuid n)) (lower OPPLE_CHARACTERISTIC_UUID_COMMAND_TX)
  && Nat.eqb (length (n_data n)) 11.

(** Attach a battery value to the last record if it has none yet. *)
Definition attach_battery (mv : Z) (buf : list dict) : list dict :=
  match list.last buf with
  | Some r =>
      if is_none (get r "RawBattery_mV")
      then OPPLE_read_1.set_last_battery (VInt mv) buf
      else buf
  | None => buf
  end.

Lemma is_aux_frame_true (n : notification) :
  is_aux_frame n = true <->
  on_command_channel (n_uuid n) /\ length (n_data n) = 11%nat.
Proof.
  unfold is_aux_frame, on_command_channel.
  rewrite andb_true_iff, String.eqb_eq, Nat.eqb_eq. tauto.
Qed.

(** One notification through each handler, by kind of frame. *)
Lemma on_notification_1_eq (buf : list dict) (n : notification) :
  OPPLE_read_1.on_notification buf n =
    if is_light_frame n
    then buf ++ [OPPLE_read_1.measurement_entry (n_time n) (light_sample n)]
    else if is_aux_frame n
         then attach_battery (u16_be_at (n_data n) 8) buf
         else buf.
Proof.
  unfold OPPLE_read_1.on_notification, OPPLE_read_1.notification_handler.
  destruct (parse_cases (n_data n) (n_uuid n)) as [Hch Hlen|Hch Hlen|r Hno Hr _ Hign].
  - rewrite (parse_20 _ _ Hch Hlen). cbn [bind]. rewrite on_decoded_primary_1.
    case_bool_decide as Hz.
    + assert (Hl : is_light_frame n = false)
        by (apply not_true_is_false; rewrite is_light_frame_true; tauto).
      assert (Ha : is_aux_frame n = false)
        by (apply not_true_is_false; rewrite is_aux_frame_true; lia).
      rewrite Hl, Ha. reflexivity.
    + assert (Hl : is_light_frame n = true) by (apply is_light_frame_true; tauto).
      rewrite Hl. reflexivity.
  - assert (Hl : is_light_frame n = false)
      by (apply not_true_is_false; rewrite is_light_frame_true; lia).
    assert (Ha : is_aux_frame n = true) by (apply is_aux_frame_true; tauto).
    rewrite Hl, Ha, (parse_11 _ _ Hch Hlen). cbn [bind].
    rewrite on_decoded_auxiliary_1. reflexivity.
  - assert (Hl : is_light_frame n = false)
      by (apply not_true_is_false; rewrite is_light_frame_true; tauto).
    assert (Ha : is_aux_frame n = false)
      by (apply not_true_is_false; rewrite is_aux_frame_true; tauto).
    rewrite Hl, Ha, Hr. cbn [bind]. rewrite (proj1 (Hign _ _)). reflexivity.
Qed.

Lemma on_notification_0_eq (buf : list dict) (n : notification) :
  OPPLE_read.on_notification buf n =
    if is_light_frame n
    then buf ++ [OPPLE_read.light_entry (n_time n) (light_sample n)]
    else buf.
Proof.
  destruct (on_notification_0_step buf n) as [[Hl Hstep]|[Hl Hstep]];
    rewrite Hl, Hstep; reflexivity.
Qed.

(** X3. The handler of OPPLE_read_1.py changes the buffer for two kinds of
    frame only. A frame classified [LIGHT_DETECTED] appends one record; an
    11-byte command-channel frame attaches its battery value to the last
    record if that record has none; every other frame (a dark sample, a
    command-channel frame of another length, any frame on the data channel or
    on an unknown characteristic) leaves the buffer as it is. *)
Theorem handler_1_by_frame_kind (buf : list dict) (n : notification) :
  OPPLE_read_1.notification_handler (n_time n) (n_uuid n) (n_data n) buf =
    Ok (if is_light_frame n
        then buf ++ [OPPLE_read_1.measurement_entry (n_time n) (light_sample n)]
        else if is_aux_frame n
             then attach_battery (u16_be_at (n_data n) 8) buf
             else buf).
Proof.
  destruct (notification_handler_1_total (n_time n) (n_uuid n) (n_data n) buf)
    as [buf' Hbuf'].
  rewrite Hbuf'. f_equal.
  rewrite <- on_notification_1_eq. unfold OPPLE_read_1.on_notification.
  rewrite Hbuf'. reflexivity.
Qed.

(** X4. The handler of OPPLE_read.py stores light samples and nothing else:
    a frame classified [LIGHT_DETECTED] appends the parser's dict extended
    with the timestamp and the null placeholders; every other frame,
    battery frames included, leaves the buffer as it is. *)
Theorem handler_0_by_frame_kind (buf : list dict) (n : notification) :
  OPPLE_read.notification_handler (n_time n) (n_uuid n) (n_data n) buf =
    Ok (if is_light_frame n
        then buf ++ [OPPLE_read.light_entry (n_time n) (light_sample n)]
        else buf).
Proof.
  destruct (notification_handler_0_total (n_time n) (n_uuid n) (n_data n) buf)
    as [buf' Hbuf'].
  rewrite Hbuf'. f_equal.
  rewrite <- on_notification_0_eq. unfold OPPLE_read.on_notification.
  rewrite Hbuf'. reflexivity.
Qed.

(** ** Invariants of the buffer of OPPLE_read_1.py *)

(** A record as the buffer holds it: created from a light sample, with the
    battery field possibly filled in since. *)
Definition record_with (t h : string) (a b c : Z) (battery : pyval) : dict :=
  <["RawBattery_mV" := battery]>
    (OPPLE_read_1.measurement_entry t (primary_sample h a b c "LIGHT_DETECTED")).

Definition u16 (n : Z) : Prop := 0 <= n < 65536.

Definition session_record (r : dict) : Prop :=
  exists t h a b c battery,
    r = record_with t h a b c battery
    /\ u16 a /\ u16 b /\ u16 c /\ ~ (a = 0 /\ b = 0 /\ c = 0)
    /\ (battery = VNone \/ exists mv, battery = VInt mv /\ u16 mv).

Lemma measurement_entry_record_with t h a b c :
  OPPLE_read_1.measurement_entry t (primary_sample h a b c "LIGHT_DETECTED")
    = record_with t h a b c VNone.
Proof.
  unfold record_with. symmetry. apply insert_id. reflexivity.
Qed.

Lemma record_with_set_battery t h a b c v v' :
  <["RawBattery_mV" := v']> (record_with t h a b c v) = record_with t h a b c v'.
Proof. unfold record_with. apply insert_insert_eq. Qed.

Lemma record_with_get_battery t h a b c v :
  get (record_with t h a b c v) "RawBattery_mV" = v.
Proof. unfold record_with, get. rewrite lookup_insert_eq. reflexivity. Qed.

Lemma light_entry_session_record (n : notification) :
  is_light_frame n = true ->
  session_record (OPPLE_read_1.measurement_entry (n_time n) (light_sample n)).
Proof.
  intros Hl. apply is_light_frame_true in Hl. destruct Hl as (_ & _ & Hnz).
  unfold light_sample. rewrite measurement_entry_record_with.
  do 6 eexists. split; [reflexivity|].
  repeat split; try apply u16_le_at_range; [exact Hnz | left; reflexivity].
Qed.

Lemma attach_battery_session_records (mv : Z) (buf : list dict) :
  u16 mv -> Forall session_record buf -> Forall session_record (attach_battery mv buf).
Proof.
  intros Hmv Hbuf. unfold attach_battery.
  destruct (list.last buf) as [r|] eqn:Hlast; [|exact Hbuf].
  apply last_Some in Hlast. destruct Hlast as [pre ->].
  destruct (is_none (get r "RawBattery_mV")); [|exact Hbuf].
  rewrite set_last_battery_snoc.
  rewrite Forall_app, Forall_singleton in Hbuf. destruct Hbuf as [Hpre Hr].
  rewrite Forall_app, Forall_singleton. split; [exact Hpre|].
  destruct Hr as (t & h & a & b & c & v & Hr & Ha & Hb & Hc & Hnz & _).
  subst r. rewrite record_with_set_battery.
  exists t, h, a, b, c, (VInt mv). split; [reflexivity|].
  do 4 (split; [assumption|]).
  right. exists mv. split; [reflexivity | exact Hmv].
Qed.

Lemma on_notification_1_session_records (buf : list dict) (n : notification) :
  Forall session_record buf ->
  Forall session_record (OPPLE_read_1.on_notification buf n).
Proof.
  intros Hbuf. rewrite on_notification_1_eq.
  destruct (is_light_frame n) eqn:Hl.
  - rewrite Forall_app, Forall_singleton. split; [exact Hbuf|].
    apply light_entry_session_record. exact Hl.
  - destruct (is_aux_frame n); [|exact Hbuf].
    apply attach_battery_session_records; [apply u16_be_at_range | exact Hbuf].
Qed.

Lemma deliver_1_session_records (ns : list notification) (buf : list dict) :
  Forall session_record buf -> Forall session_record (OPPLE_read_1.deliver ns buf).
Proof.
  revert buf. induction ns as [|n ns IH]; intros buf Hbuf; [exact Hbuf|].
  unfold OPPLE_read_1.deliver in *. simpl foldl.
  apply IH. apply on_notification_1_session_records. exact Hbuf.
Qed.

(** X5. Whatever frames arrive, every record in the buffer of
    OPPLE_read_1.py has the fourteen export fields and no others: the
    timestamp, hex dump and three raw values (unsigned 16-bit, not all zero)
    of the light frame that created it, a battery field that is null or an
    unsigned 16-bit value, and the eight app fields null. *)
Theorem buffer_records_well_formed (ns : list notification) :
  Forall (fun r =>
            session_record r
            /\ dom r = list_to_set fieldnames
            /\ Forall (fun k => r !! k = Some VNone)
                 ["App_Lux"; "App_CCT"; "App_Ra"; "App_x"; "App_y"; "App_u";
                  "App_v"; "App_Battery_Percent"])
    (OPPLE_read_1.deliver ns []).
Proof.
  pose proof (deliver_1_session_records ns [] (Forall_nil_2 _)) as H.
  refine (List.Forall_impl _ _ H). clear H.
  intros r (t & h & a & b & c & v & Hr & Hrest). subst r. split.
  - do 6 eexists. split; [reflexivity | exact Hrest].
  - split.
    + unfold record_with, OPPLE_read_1.measurement_entry.
      rewrite !dom_insert_L, dom_empty_L. vm_compute. reflexivity.
    + repeat constructor.
Qed.

(** ** What the export writes for a buffer built by the handlers *)

Lemma clean_row_record_with t h a b c v :
  clean_row (record_with t h a b c v) =
    [t; h; str_of_int a; str_of_int b; str_of_int c; csv_cell v;
     ""; ""; ""; ""; ""; ""; ""; ""].
Proof. reflexivity. Qed.

Lemma clean_row_light_entry t h a b c :
  clean_row (OPPLE_read.light_entry t (primary_sample h a b c "LIGHT_DETECTED")) =
    [t; h; str_of_int a; str_of_int b; str_of_int c; "";
     ""; ""; ""; ""; ""; ""; ""; ""].
Proof. reflexivity. Qed.

(** X6. The data rows OPPLE_read_1.py exports: each row is the timestamp,
    the hex dump, the three raw values in decimal, a battery cell that is
    empty or a decimal unsigned 16-bit value, and eight empty cells for the
    app readings. *)
Theorem export_1_rows (ns : list notification) :
  Forall (fun row =>
            exists t h a b c battery,
              row = [t; h; str_of_int a; str_of_int b; str_of_int c; battery;
                     ""; ""; ""; ""; ""; ""; ""; ""]
              /\ u16 a /\ u16 b /\ u16 c
              /\ (battery = "" \/ exists mv, u16 mv /\ battery = str_of_int mv))
    (map clean_row (OPPLE_read_1.deliver ns [])).
Proof.
  apply List.Forall_map.
  refine (List.Forall_impl _ _ (deliver_1_session_records ns [] (Forall_nil_2 _))).
  intros r (t & h & a & b & c & v & Hr & Ha & Hb & Hc & _ & Hv). subst r.
  rewrite clean_row_record_with.
  exists t, h, a, b, c, (csv_cell v). split; [reflexivity|].
  do 3 (split; [assumption|]).
  destruct Hv as [->|(mv & -> & Hmv)]; [left; reflexivity|].
  right. exists mv. split; [exact Hmv | reflexivity].
Qed.

(** X7. The data rows OPPLE_read.py exports are exactly, in arrival order,
    one row per frame classified [LIGHT_DETECTED]: its timestamp, hex dump
    and three raw values, then nine empty cells. The battery column is
    always empty there, since that script never attaches battery frames, and
    the parser's own keys (packet type, state) are not exported. *)
Theorem export_0_rows (ns : list notification) :
  map clean_row (OPPLE_read.deliver ns []) =
    map (fun n =>
           [n_time n; hex (n_data n);
            str_of_int (u16_le_at (n_data n) 14);
            str_of_int (u16_le_at (n_data n) 16);
            str_of_int (u16_le_at (n_data n) 18);
            ""; ""; ""; ""; ""; ""; ""; ""; ""])
      (List.filter is_light_frame ns).
Proof.
  rewrite deliver_0_entries. simpl app. rewrite map_map.
  apply map_ext. intros n. unfold light_sample. apply clean_row_light_entry.
Qed.

(** ** Records are only ever added at the end *)

Definition same_but_battery (r r' : dict) : Prop :=
  forall k, k <> "RawBattery_mV" -> r' !! k = r !! k.

Lemma attach_battery_keeps_prefix (mv : Z) (pre : list dict) (r r' : dict)
    (rest : list dict) :
  same_but_battery r r' ->
  exists r'' rest',
    attach_battery mv (pre ++ r' :: rest) = pre ++ r'' :: rest'
    /\ same_but_battery r r''.
Proof.
  intros Hsame. unfold attach_battery.
  destruct (list.last rest) as [x|] eqn:Hlast.
  - apply last_Some in Hlast. destruct Hlast as [rest0 ->].
    replace (pre ++ r' :: rest0 ++ [x]) with ((pre ++ r' :: rest0) ++ [x])
      by (rewrite <- app_assoc; reflexivity).
    rewrite last_snoc.
    destruct (is_none (get x "RawBattery_mV")).
    + rewrite set_last_battery_snoc, <- app_assoc. simpl. eauto.
    + rewrite <- app_assoc. simpl. eauto.
  - apply last_None in Hlast. subst rest.
    rewrite last_snoc.
    destruct (is_none (get r' "RawBattery_mV")); [|eauto].
    rewrite set_last_battery_snoc. do 2 eexists. split; [reflexivity|].
    intros k Hk. rewrite lookup_insert_ne by congruence. apply Hsame, Hk.
Qed.

Lemma deliver_1_keeps_prefix (ns : list notification) (pre : list dict)
    (r r' : dict) (rest : list dict) :
  same_but_battery r r' ->
  exists r'' rest',
    OPPLE_read_1.deliver ns (pre ++ r' :: rest) = pre ++ r'' :: rest'
    /\ same_but_battery r r''.
Proof.
  revert r' rest. induction ns as [|n ns IH]; intros r' rest Hsame; [simpl; eauto|].
  unfold OPPLE_read_1.deliver in *. simpl foldl. rewrite on_notification_1_eq.
  destruct (is_light_frame n).
  - rewrite <- app_assoc. simpl app. apply IH. exact Hsame.
  - destruct (is_aux_frame n); [|apply IH; exact Hsame].
    destruct (attach_battery_keeps_prefix (u16_be_at (n_data n) 8) pre r r' rest Hsame)
      as (r'' & rest' & -> & Hsame').
    apply IH. exact Hsame'.
Qed.

(** X8. Records are never removed, reordered or rewritten. In
    OPPLE_read_1.py, whatever arrives after a record was appended, the
    records before it stay exactly as they were and the record itself stays
    in place, changing at most in its battery field. In OPPLE_read.py the
    whole buffer stays as it was and new records follow it. *)
Theorem records_only_appended (ns : list notification) (pre : list dict) (r : dict) :
  (exists r' rest,
     OPPLE_read_1.deliver ns (pre ++ [r]) = pre ++ r' :: rest
     /\ same_but_battery r r')
  /\ (exists rest, OPPLE_read.deliver ns (pre ++ [r]) = pre ++ r :: rest).
Proof.
  split.
  - apply deliver_1_keeps_prefix. intros k _. reflexivity.
  - rewrite deliver_0_entries, <- app_assoc. simpl. eauto.
Qed.

(** ** Which battery value a record ends up with *)

(** The value carried by the first battery frame of a run of frames. *)
Definition first_battery (mid : list notification) : pyval :=
  match List.find is_aux_frame mid with
  | Some a => VInt (u16_be_at (n_data a) 8)
  | None => VNone
  end.

Lemma deliver_1_until_next_light (mid : list notification) (buf : list dict)
    (t h : string) (a b c : Z) (v : pyval) :
  Forall (fun n => is_light_frame n = false) mid ->
  OPPLE_read_1.deliver mid (buf ++ [record_with t h a b c v]) =
    buf ++ [record_with t h a b c (if is_none v then first_battery mid else v)].
Proof.
  revert v. induction mid as [|n mid IH]; intros v Hmid.
  - simpl. destruct v; reflexivity.
  - pose proof (List.Forall_inv Hmid) as Hn. simpl in Hn.
    apply List.Forall_inv_tail in Hmid.
    unfold OPPLE_read_1.deliver in *. simpl foldl.
    rewrite on_notification_1_eq, Hn. unfold first_battery. simpl List.find.
    destruct (is_aux_frame n).
    + unfold attach_battery. rewrite last_snoc, record_with_get_battery.
      destruct (is_none v) eqn:Hv.
      * rewrite set_last_battery_snoc, record_with_set_battery.
        rewrite IH by exact Hmid. reflexivity.
      * rewrite IH by exact Hmid. rewrite Hv. reflexivity.
    + rewrite IH by exact Hmid. reflexivity.
Qed.

Lemma deliver_1_length (ns : list notification) :
  length (OPPLE_read_1.deliver ns []) = length (List.filter is_light_frame ns).
Proof.
  pose proof (deliver_1_fields ns []) as H. simpl app in H.
  apply (f_equal (@length _)) in H. rewrite !length_map in H. exact H.
Qed.

(** X9. The temporal join of OPPLE_read_1.py, in full. Take a light frame,
    the frames [mid] that arrive after it up to the next light frame, and
    whatever comes later. The record of that light frame ends up with the
    value of the first battery frame in [mid], or with a null battery field
    if [mid] has none; later battery frames of [mid] and everything that
    arrives from the next light frame on have no effect on it. *)
Theorem battery_is_first_before_next_light
    (before mid later : list notification) (l : notification) :
  is_light_frame l = true ->
  Forall (fun n => is_light_frame n = false) mid ->
  match later with [] => True | l' :: _ => is_light_frame l' = true end ->
  OPPLE_read_1.deliver (before ++ l :: mid ++ later) []
    !! length (List.filter is_light_frame before)
  = Some (<["RawBattery_mV" := first_battery mid]>
            (OPPLE_read_1.measurement_entry (n_time l) (light_sample l))).
Proof.
  intros Hl Hmid Hlater.
  unfold OPPLE_read_1.deliver. rewrite foldl_app. simpl foldl.
  rewrite foldl_app. fold (OPPLE_read_1.deliver before []).
  rewrite <- deliver_1_length.
  set (buf := OPPLE_read_1.deliver before []).
  rewrite on_notification_1_eq, Hl. unfold light_sample.
  rewrite measurement_entry_record_with.
  fold (OPPLE_read_1.deliver mid
          (buf ++ [record_with (n_time l) (hex (n_data l)) (u16_le_at (n_data l) 14)
                     (u16_le_at (n_data l) 16) (u16_le_at (n_data l) 18) VNone])).
  rewrite deliver_1_until_next_light by exact Hmid. simpl is_none. cbv iota.
  rewrite record_with_set_battery.
  set (rec := record_with _ _ _ _ _ (first_battery mid)).
  destruct later as [|l' later].
  - simpl. rewrite lookup_app_r by lia. rewrite Nat.sub_diag. reflexivity.
  - simpl foldl. rewrite on_notification_1_eq, Hlater.
    fold (OPPLE_read_1.deliver later
            ((buf ++ [rec]) ++
             [OPPLE_read_1.measurement_entry (n_time l') (light_sample l')])).
    destruct (deliver_1_keeps_prefix later (buf ++ [rec])
                (OPPLE_read_1.measurement_entry (n_time l') (light_sample l'))
                (OPPLE_read_1.measurement_entry (n_time l') (light_sample l')) [])
      as (r'' & rest' & -> & _); [intros k _; reflexivity|].
    rewrite <- app_assoc. rewrite lookup_app_r by lia.
    rewrite Nat.sub_diag. reflexivity.
Qed.

Lemma battery_is_first_before_next_light_witness :
  OPPLE_read_1.deliver
    ([] ++ Notification "t1" OPPLE_CHARACTERISTIC_UUID_COMMAND_TX example_frame
        :: [Notification "t2" OPPLE_CHARACTERISTIC_UUID_COMMAND_TX example_battery_frame;
            Notification "t3" OPPLE_CHARACTERISTIC_UUID_COMMAND_TX dark_frame;
            Notification "t4" OPPLE_CHARACTERISTIC_UUID_COMMAND_TX
              [x00; x00; x0b; x00; x13; x00; x00; x02; x0f; xa0; x00]]
        ++ [Notification "t5" OPPLE_CHARACTERISTIC_UUID_COMMAND_TX example_frame]) []
    !! length (List.filter is_light_frame [])
  = Some (<["RawBattery_mV" :=
              first_battery
                [Notification "t2" OPPLE_CHARACTERISTIC_UUID_COMMAND_TX
                   example_battery_frame;
                 Notification "t3" OPPLE_CHARACTERISTIC_UUID_COMMAND_TX dark_frame;
                 Notification "t4" OPPLE_CHARACTERISTIC_UUID_COMMAND_TX
                   [x00; x00; x0b; x00; x13; x00; x00; x02; x0f; xa0; x00]]]>
            (OPPLE_read_1.measurement_entry "t1"
               (light_sample
                  (Notification "t1" OPPLE_CHARACTERISTIC_UUID_COMMAND_TX
                     example_frame)))).
Proof.
  apply (battery_is_first_before_next_light []).
  - vm_compute. reflexivity.
  - repeat constructor.
  - vm_compute. reflexivity.
Defined.

(** ** The export and the rest of the file system *)

Lemma save_other_file (filename other : string) (data_list : list dict)
    (fs : filesystem) :
  other <> filename ->
  files (save_measurements_to_csv filename data_list fs) !! other = files fs !! other.
Proof.
  intros Hne. unfold save_measurements_to_csv.
  destruct data_list as [|r rest]; [reflexivity|].
  case_bool_decide; [reflexivity|]. simpl. apply lookup_insert_ne. congruence.
Qed.

Lemma save_unwritable (filename : string) (data_list : list dict) (fs : filesystem) :
  unwritable (save_measurements_to_csv filename data_list fs) = unwritable fs.
Proof.
  unfold save_measurements_to_csv.
  destruct data_list as [|r rest]; [reflexivity|].
  case_bool_decide; reflexivity.
Qed.

(** X10. An export touches one file only: every other file keeps its
    content (or stays absent), whatever is exported and whether or not the
    target can be opened. *)
Theorem export_touches_one_file (filename other : string) (data_list : list dict)
    (fs : filesystem) :
  other <> filename ->
  files (save_measurements_to_csv filename data_list fs) !! other = files fs !! other
  /\ unwritable (save_measurements_to_csv filename data_list fs) = unwritable fs.
Proof.
  intros Hne. split; [apply save_other_file; exact Hne | apply save_unwritable].
Qed.

Lemma export_touches_one_file_witness :
  files (save_measurements_to_csv "measurements_2_layers.csv" [example_record]
           (save_measurements_to_csv "measurements_no_filter.csv" [example_record]
              empty_fs))
    !! "measurements_no_filter.csv"
  = files (save_measurements_to_csv "measurements_no_filter.csv" [example_record]
             empty_fs) !! "measurements_no_filter.csv"
  /\ unwritable
       (save_measurements_to_csv "measurements_2_layers.csv" [example_record]
          (save_measurements_to_csv "measurements_no_filter.csv" [example_record]
             empty_fs))
     = unwritable
         (save_measurements_to_csv "measurements_no_filter.csv" [example_record]
            empty_fs).
Proof.
  apply (export_touches_one_file "measurements_2_layers.csv"
           "measurements_no_filter.csv"). discriminate.
Defined.

(** X11. The export opens its file for writing, not appending: exporting a
    non-empty buffer replaces whatever an earlier export left under the
    same name. An empty buffer, by contrast, leaves the earlier export in
    place. *)
Theorem export_replaces_earlier_export (filename : string)
    (earlier : list dict) (r : dict) (rest : list dict) (fs : filesystem) :
  save_measurements_to_csv filename (r :: rest)
      (save_measurements_to_csv filename earlier fs)
    = save_measurements_to_csv filename (r :: rest) fs
  /\ save_measurements_to_csv filename []
       (save_measurements_to_csv filename earlier fs)
     = save_measurements_to_csv filename earlier fs.
Proof.
  split; [|reflexivity].
  unfold save_measurements_to_csv at 1 3.
  rewrite save_unwritable.
  case_bool_decide as Hw.
  - unfold save_measurements_to_csv. destruct earlier; [reflexivity|].
    rewrite bool_decide_eq_true_2 by exact Hw. reflexivity.
  - f_equal. unfold save_measurements_to_csv. destruct earlier; [reflexivity|].
    rewrite bool_decide_eq_false_2 by exact Hw. simpl. apply insert_insert_eq.
Qed.

(** ** More on the averages *)

Lemma field_values_perm (key : string) (ms ms' : list dict) :
  Permutation ms ms' -> Permutation (field_values key ms) (field_values key ms').
Proof.
  intros Hp. unfold field_values, omap.
  induction Hp as [|m l l' _ IH|m m' l|l l' l'' _ IH1 _ IH2]; simpl.
  - constructor.
  - destruct (m !! key) as [[| |]|]; try exact IH. constructor. exact IH.
  - destruct (m !! key) as [[| |]|], (m' !! key) as [[| |]|];
      first [apply Permutation_refl | apply perm_swap].
  - etransitivity; eassumption.
Qed.

Lemma sum_list_perm (l l' : list Z) : Permutation l l' -> sum_list l = sum_list l'.
Proof.
  unfold sum_list.
  induction 1 as [|x l l' _ IH|x y l|l l' l'' _ IH1 _ IH2]; simpl; lia.
Qed.

Lemma mean_perm (l l' : list Z) : Permutation l l' -> mean l = mean l'.
Proof.
  intros Hp. unfold mean.
  rewrite (sum_list_perm l l' Hp), (Permutation_length Hp).
  destruct l as [|x l], l' as [|x' l']; try reflexivity.
  - apply Permutation_nil in Hp. discriminate.
  - symmetry in Hp. apply Permutation_nil in Hp. discriminate.
Qed.

Lemma numeric_record_perm (ms ms' : list dict) :
  Permutation ms ms' -> Forall numeric_record ms -> Forall numeric_record ms'.
Proof.
  intros Hp H. rewrite List.Forall_forall in *. intros m Hm.
  apply H. eapply Permutation_in; [symmetry; exact Hp | exact Hm].
Qed.

Lemma average_keys_perm (keys : list string) (l l' : list dict)
    (avg_data : gmap string (option Qc)) :
  (forall key, In key keys -> In key keys_to_average) ->
  Permutation l l' ->
  Forall numeric_record l -> Forall numeric_record l' ->
  average_keys keys l avg_data = average_keys keys l' avg_data.
Proof.
  intros Hkeys Hp Hnum Hnum'. revert avg_data.
  induction keys as [|key keys IH]; intros avg_data; [reflexivity|].
  assert (IH' := IH (fun k Hk => Hkeys k (in_cons _ _ _ Hk))).
  cbn [average_keys].
  rewrite (values_for_ints key l), (values_for_ints key l') by (auto using in_eq).
  pose proof (field_values_perm key l l' Hp) as Hfv.
  pose proof (sum_list_perm _ _ Hfv) as Hsum.
  pose proof (Permutation_length Hfv) as Hlen.
  destruct (field_values key l) as [|x xs], (field_values key l') as [|y ys].
  - apply IH'.
  - apply Permutation_nil in Hfv. discriminate.
  - symmetry in Hfv. apply Permutation_nil in Hfv. discriminate.
  - change (map VInt (x :: xs)) with (VInt x :: map VInt xs) at 1.
    change (map VInt (y :: ys)) with (VInt y :: map VInt ys) at 1.
    cbv iota zeta.
    change (VInt x :: map VInt xs) with (map VInt (x :: xs)).
    change (VInt y :: map VInt ys) with (map VInt (y :: ys)).
    rewrite !py_sum_ints. cbn [bind]. rewrite !length_map, Hsum, Hlen.
    destruct (true_div (0 + sum_list (y :: ys)) (length (y :: ys))) as [q|e];
      cbn [bind]; [apply IH' | reflexivity].
Qed.

(** X12. The averages do not depend on the order of the records:
    reordering a buffer of session records gives the same statistics. *)
Theorem calculate_average_order_independent (ms ms' : list dict) :
  Permutation ms ms' ->
  Forall numeric_record ms ->
  calculate_average ms = calculate_average ms'.
Proof.
  intros Hp Hnum.
  assert (Hnum' := numeric_record_perm ms ms' Hp Hnum).
  destruct ms as [|m ms].
  { apply Permutation_nil in Hp. subst ms'. reflexivity. }
  destruct ms' as [|m' ms'].
  { symmetry in Hp. apply Permutation_nil in Hp. discriminate. }
  change (average_keys keys_to_average (m :: ms) ∅
          = average_keys keys_to_average (m' :: ms') ∅).
  apply average_keys_perm; auto.
Qed.

Lemma calculate_average_order_independent_witness :
  calculate_average example_measurements = calculate_average (rev example_measurements).
Proof.
  apply (calculate_average_order_independent example_measurements
           (rev example_measurements)).
  - apply Permutation_rev.
  - apply deliver_0_numeric.
Defined.

Lemma py_sum_raises_type_error (values : list pyval) (acc : Z) (e : exn) :
  py_sum values acc = Raise e -> exists msg, e = TypeError msg.
Proof.
  revert acc. induction values as [|v values IH]; intros acc; simpl; [discriminate|].
  destruct v; [intros H; inversion H; eauto | apply IH | intros H; inversion H; eauto].
Qed.

Lemma py_sum_str (values : list pyval) (acc : Z) (s : string) :
  In (VStr s) values -> exists msg, py_sum values acc = Raise (TypeError msg).
Proof.
  revert acc. induction values as [|v values IH]; intros acc Hin; [contradiction|].
  simpl. destruct v as [|n|s']; eauto.
  apply IH. destruct Hin as [Hv|Hin]; [discriminate | exact Hin].
Qed.

Lemma values_for_str (key : string) (ms : list dict) (m : dict) (s : string) :
  In m ms -> m !! key = Some (VStr s) -> In (VStr s) (values_for key ms).
Proof.
  intros Hin Hk. unfold values_for, omap.
  induction ms as [|m' ms IH]; [contradiction|]. simpl.
  destruct Hin as [->|Hin].
  - rewrite Hk. simpl. left. reflexivity.
  - destruct (m' !! key) as [[| |]|]; simpl; auto.
Qed.

Lemma true_div_cases (total : Z) (n : nat) :
  n <> 0%nat ->
  (exists q, true_div total n = Ok q)
  \/ (exists msg, true_div total n = Raise (OverflowError msg)).
Proof.
  intros Hn. unfold true_div. destruct n as [|n]; [contradiction|].
  cbn [Nat.eqb]. destruct (Z.leb _ _); eauto.
Qed.

Lemma py_sum_ok_ints (values : list pyval) (acc total : Z) :
  py_sum values acc = Ok total ->
  exists l, values = map VInt l /\ total = acc + sum_list l.
Proof.
  revert acc. induction values as [|v values IH]; intros acc Hsum.
  - exists []. simpl in *. inversion Hsum. split; [reflexivity | unfold sum_list; simpl; lia].
  - destruct v as [|n|s0]; simpl in Hsum; try discriminate.
    destruct (IH _ Hsum) as (l & -> & ->). exists (n :: l).
    split; [reflexivity | unfold sum_list; simpl; lia].
Qed.

Lemma values_for_in (key : string) (ms : list dict) (v : pyval) :
  In v (values_for key ms) -> exists m, In m ms /\ m !! key = Some v.
Proof.
  unfold values_for, omap. induction ms as [|m ms IH]; simpl; [contradiction|].
  destruct (m !! key) as [v0|] eqn:Hk.
  - destruct (is_none v0).
    + intros Hin. destruct (IH Hin) as (m' & Hm' & Hv). eauto.
    + intros [<-|Hin]; [eauto|]. destruct (IH Hin) as (m' & Hm' & Hv). eauto.
  - intros Hin. destruct (IH Hin) as (m' & Hm' & Hv). eauto.
Qed.

(** A record whose integers, where it has any in an averaged field, are
    small enough to average as floats. *)
Definition ints_in_float_range (m : dict) : Prop :=
  forall key n, In key keys_to_average -> m !! key = Some (VInt n) ->
    Z.abs n < float_overflow_bound.

Lemma average_keys_str (keys : list string) (ms : list dict)
    (avg_data : gmap string (option Qc)) (key : string) (m : dict) (s : string) :
  In key keys -> In m ms -> m !! key = Some (VStr s) ->
  exists e, average_keys keys ms avg_data = Raise e
    /\ ((exists msg, e = TypeError msg) \/ (exists msg, e = OverflowError msg)).
Proof.
  intros Hkey Hm Hs. revert avg_data.
  induction keys as [|k keys IH]; intros avg_data; [contradiction|]. simpl.
  destruct Hkey as [->|Hkey].
  - pose proof (values_for_str key ms m s Hm Hs) as Hin.
    destruct (py_sum_str _ 0 s Hin) as [msg Hmsg].
    destruct (values_for key ms) as [|v vs]; [contradiction|].
    rewrite Hmsg. cbn [bind]. eauto.
  - destruct (values_for k ms) as [|v vs]; [apply IH; exact Hkey|].
    destruct (py_sum (v :: vs) 0) as [total|e] eqn:Hsum; cbn [bind].
    + destruct (true_div_cases total (length (v :: vs))) as [[q Hq]|[msg Hq]];
        [simpl; lia | |]; rewrite Hq; cbn [bind]; [apply IH; exact Hkey | eauto].
    + destruct (py_sum_raises_type_error _ _ _ Hsum) as [msg ->]. eauto.
Qed.

Lemma average_keys_str_in_range (keys : list string) (ms : list dict)
    (avg_data : gmap string (option Qc)) (key : string) (m : dict) (s : string) :
  (forall k, In k keys -> In k keys_to_average) ->
  Forall ints_in_float_range ms ->
  In key keys -> In m ms -> m !! key = Some (VStr s) ->
  exists msg, average_keys keys ms avg_data = Raise (TypeError msg).
Proof.
  intros Hkeys Hrange Hkey Hm Hs. revert avg_data.
  induction keys as [|k keys IH]; intros avg_data; [contradiction|]. simpl.
  assert (IH' := IH (fun k' Hk' => Hkeys k' (in_cons _ _ _ Hk'))).
  destruct Hkey as [->|Hkey].
  - pose proof (values_for_str key ms m s Hm Hs) as Hin.
    destruct (py_sum_str _ 0 s Hin) as [msg Hmsg].
    destruct (values_for key ms) as [|v vs]; [contradiction|].
    rewrite Hmsg. cbn [bind]. eauto.
  - destruct (values_for k ms) as [|v vs] eqn:Hvals; [apply IH'; exact Hkey|].
    destruct (py_sum (v :: vs) 0) as [total|e] eqn:Hsum; cbn [bind].
    + destruct (py_sum_ok_ints _ _ _ Hsum) as (l & Hl & ->).
      assert (Hbound : Forall (fun x => - (float_overflow_bound - 1) <= x
                                        <= float_overflow_bound - 1) l).
      { apply List.Forall_forall. intros x Hx.
        assert (Hin : In (VInt x) (values_for k ms)).
        { rewrite Hvals, Hl. apply in_map. exact Hx. }
        destruct (values_for_in k ms _ Hin) as (m' & Hm' & Hv).
        rewrite List.Forall_forall in Hrange.
        pose proof (Hrange m' Hm' k x (Hkeys k (in_eq _ _)) Hv). lia. }
      rewrite Hl, length_map, Z.add_0_l.
      rewrite true_div_in_range by (try exact Hbound; destruct l; discriminate).
      cbn [bind]. apply IH'. exact Hkey.
    + destruct (py_sum_raises_type_error _ _ _ Hsum) as [msg ->]. eauto.
Qed.

(** X13. The averages are defined for numbers only: if any record holds a
    string in one of the four averaged fields, [calculate_average] returns
    no statistics but raises. The exception is a [TypeError], unless an
    earlier field holds integers too large to average as a float, in which
    case it is the [OverflowError] of that division; with every integer
    within the float range it is always the [TypeError]. *)
Theorem calculate_average_string_field (ms : list dict) (key : string) (m : dict)
    (s : string) :
  In key keys_to_average -> In m ms -> m !! key = Some (VStr s) ->
  (exists e, calculate_average ms = Raise e
     /\ ((exists msg, e = TypeError msg) \/ (exists msg, e = OverflowError msg)))
  /\ (Forall ints_in_float_range ms ->
      exists msg, calculate_average ms = Raise (TypeError msg)).
Proof.
  intros Hkey Hm Hs. unfold calculate_average.
  destruct ms as [|m0 ms]; [contradiction|]. split.
  - eapply average_keys_str; eassumption.
  - intros Hrange. eapply average_keys_str_in_range; eauto.
Qed.

Lemma calculate_average_string_field_witness :
  (exists e,
     calculate_average [example_record; <["RawVal_2" := VStr "4274"]> example_record]
       = Raise e
     /\ ((exists msg, e = TypeError msg) \/ (exists msg, e = OverflowError msg)))
  /\ (Forall ints_in_float_range
        [example_record; <["RawVal_2" := VStr "4274"]> example_record] ->
      exists msg,
        calculate_average [example_record; <["RawVal_2" := VStr "4274"]> example_record]
          = Raise (TypeError msg)).
Proof.
  apply (calculate_average_string_field
           [example_record; <["RawVal_2" := VStr "4274"]> example_record]
           "RawVal_2" (<["RawVal_2" := VStr "4274"]> example_record) "4274").
  - simpl. tauto.
  - simpl. tauto.
  - reflexivity.
Defined.

(** With integers beyond the float range in an earlier field, the string
    is never reached: the division of that field raises first. *)
Example calculate_average_overflow_before_string :
  calculate_average
    [<["RawVal_2" := VStr "x"]> (<["RawVal_1" := VInt (10 ^ 400)]> ∅)]
  = Raise (OverflowError "integer division result too large for a float").
Proof. vm_compute. reflexivity. Qed.

(** The statistics of a buffer of OPPLE_read.py, from the light frames that
    built it. *)
Definition session_averages (lights : list notification) : gmap string (option Qc) :=
  <["RawBattery_mV" := None]>
  (<["RawVal_3" := mean (map (fun n => u16_le_at (n_data n) 18) lights)]>
  (<["RawVal_2" := mean (map (fun n => u16_le_at (n_data n) 16) lights)]>
  (<["RawVal_1" := mean (map (fun n => u16_le_at (n_data n) 14) lights)]> ∅))).

Lemma field_values_light_entries (lights : list notification) :
  let buf := map (fun n => OPPLE_read.light_entry (n_time n) (light_sample n)) lights in
  field_values "RawVal_1" buf = map (fun n => u16_le_at (n_data n) 14) lights
  /\ field_values "RawVal_2" buf = map (fun n => u16_le_at (n_data n) 16) lights
  /\ field_values "RawVal_3" buf = map (fun n => u16_le_at (n_data n) 18) lights
  /\ field_values "RawBattery_mV" buf = [].
Proof.
  unfold field_values, omap.
  induction lights as [|n lights (IH1 & IH2 & IH3 & IH4)]; [repeat split|].
  cbn [map list_omap]. rewrite IH1, IH2, IH3, IH4. repeat split.
Qed.

Lemma calculate_average_deliver_0 (ns : list notification) :
  calculate_average (OPPLE_read.deliver ns []) =
    Ok (match List.filter is_light_frame ns with
        | [] => ∅
        | lights => session_averages lights
        end).
Proof.
  pose proof (deliver_0_averageable ns) as Hnum. revert Hnum.
  rewrite deliver_0_entries. simpl app.
  destruct (List.filter is_light_frame ns) as [|l lights]; [reflexivity|].
  change (calculate_average (map ?f (l :: lights)))
    with (average_keys keys_to_average (map f (l :: lights)) ∅).
  cbv iota. generalize (l :: lights). intros ls Hnum.
  destruct (field_values_light_entries ls) as (H1 & H2 & H3 & H4).
  rewrite average_keys_spec by auto. unfold keys_to_average. cbn [foldl].
  rewrite H1, H2, H3, H4. reflexivity.
Qed.

(** X14. In OPPLE_read.py the statistics reported after a phase are those
    of the frames classified [LIGHT_DETECTED]: the three raw fields are
    averaged over exactly those frames, and the battery average is always
    null, since that script never stores a battery value. With no such
    frame nothing is reported. The call never raises on a buffer the handler
    built. *)
Theorem session_statistics (ns : list notification) :
  let lights := List.filter is_light_frame ns in
  exists avg,
    calculate_average (OPPLE_read.deliver ns []) = Ok avg
    /\ (lights = [] -> avg = ∅)
    /\ (lights <> [] ->
        avg !! "RawVal_1" = Some (mean (map (fun n => u16_le_at (n_data n) 14) lights))
        /\ avg !! "RawVal_2" = Some (mean (map (fun n => u16_le_at (n_data n) 16) lights))
        /\ avg !! "RawVal_3" = Some (mean (map (fun n => u16_le_at (n_data n) 18) lights))
        /\ avg !! "RawBattery_mV" = Some None).
Proof.
  intros lights. rewrite calculate_average_deliver_0. fold lights.
  eexists. split; [reflexivity|]. split.
  - intros ->. reflexivity.
  - intros Hne. destruct lights as [|l ls]; [contradiction|].
    repeat split.
Qed.


Lemma mean_bounds (l : list Z) (lo hi : Z) (q : Qc) :
  mean l = Some q ->
  Forall (fun x => lo <= x <= hi) l ->
  (Qc_of_Z lo <= q)%Qc /\ (q <= Qc_of_Z hi)%Qc.
Proof.
  intros Hmean Hl. pose proof (sum_list_bounds l lo hi Hl) as Hsum.
  destruct l as [|x l]; [discriminate|].
  assert (Hn : (0 < Z.of_nat (length (x :: l)))%Z) by (simpl length; lia).
  cbv beta iota delta [mean] in Hmean.
  remember (Z.of_nat (length (x :: l))) as n eqn:En in *.
  remember (sum_list (x :: l)) as s eqn:Es in *.
  clear En Es Hl. inversion Hmean as [Hq]. clear Hmean Hq.
  assert (Hpos : (0 < Qc_of_Z n)%Qc).
  { apply (proj1 (Z2Qc_inj_lt 0 n)) in Hn. rewrite Z2Qc_inj_0 in Hn. exact Hn. }
  assert (Hne : Qc_of_Z n <> 0%Qc).
  { intros H0. rewrite H0 in Hpos. exact (Qclt_not_eq _ _ Hpos eq_refl). }
  assert (Hmul : (Qc_of_Z s / Qc_of_Z n * Qc_of_Z n = Qc_of_Z s)%Qc).
  { rewrite Qcmult_comm. apply Qcmult_div_r. exact Hne. }
  split.
  - apply (Qcmult_le_mono_pos_r _ _ (Qc_of_Z n) Hpos).
    rewrite Hmul, <- Z2Qc_inj_mul. apply (proj1 (Z2Qc_inj_le (lo * n) s)). lia.
  - apply (Qcmult_le_mono_pos_r _ _ (Qc_of_Z n) Hpos).
    rewrite Hmul, <- Z2Qc_inj_mul. apply (proj1 (Z2Qc_inj_le s (hi * n))). lia.
Qed.

(** X15. Every average OPPLE_read.py reports after a phase lies between 0
    and 65535, the range of the raw readings it averages. *)
Theorem session_averages_within_range (ns : list notification)
    (avg : gmap string (option Qc)) (key : string) (q : Qc) :
  calculate_average (OPPLE_read.deliver ns []) = Ok avg ->
  avg !! key = Some (Some q) ->
  (Qc_of_Z 0 <= q)%Qc /\ (q <= Qc_of_Z 65535)%Qc.
Proof.
  rewrite calculate_average_deliver_0. intros Havg Hq.
  inversion Havg as [Havg']. clear Havg. subst avg.
  destruct (List.filter is_light_frame ns) as [|l lights];
    [rewrite lookup_empty in Hq; discriminate|].
  revert Hq. generalize (l :: lights). intros ls Hq. unfold session_averages in Hq.
  assert (Hrange : forall off,
            Forall (fun x => 0 <= x <= 65535)
              (map (fun n => u16_le_at (n_data n) off) ls)).
  { intros off. apply List.Forall_map. apply List.Forall_forall. intros n _.
    pose proof (u16_le_at_range (n_data n) off). lia. }
  rewrite lookup_insert in Hq. case_decide; [discriminate|].
  rewrite lookup_insert in Hq. case_decide.
  { inversion Hq as [Hm]. exact (mean_bounds _ 0 65535 q Hm (Hrange 18%nat)). }
  rewrite lookup_insert in Hq. case_decide.
  { inversion Hq as [Hm]. exact (mean_bounds _ 0 65535 q Hm (Hrange 16%nat)). }
  rewrite lookup_insert in Hq. case_decide.
  { inversion Hq as [Hm]. exact (mean_bounds _ 0 65535 q Hm (Hrange 14%nat)). }
  rewrite lookup_empty in Hq. discriminate.
Qed.

Lemma session_averages_within_range_witness :
  (Qc_of_Z 0 <= Qc_of_Z 23 / Qc_of_Z 2)%Qc /\ (Qc_of_Z 23 / Qc_of_Z 2 <= Qc_of_Z 65535)%Qc.
Proof.
  apply (session_averages_within_range
           [Notification "12:00:00.000" OPPLE_CHARACTERISTIC_UUID_COMMAND_TX example_frame;
            Notification "12:00:00.500" OPPLE_CHARACTERISTIC_UUID_COMMAND_TX
              example_battery_frame;
            Notification "12:00:01.000" OPPLE_CHARACTERISTIC_UUID_COMMAND_TX
              (example_header ++ [x0c; x00; xb4; x10; x80; x16])]
           (session_averages
              [Notification "12:00:00.000" OPPLE_CHARACTERISTIC_UUID_COMMAND_TX
                 example_frame;
               Notification "12:00:01.000" OPPLE_CHARACTERISTIC_UUID_COMMAND_TX
                 (example_header ++ [x0c; x00; xb4; x10; x80; x16])])
           "RawVal_1").
  - rewrite calculate_average_deliver_0. reflexivity.
  - apply (f_equal Some). apply (f_equal Some). apply Qc_is_canon. reflexivity.
Defined.

(** ** The polling loop for an arbitrary transport *)

Definition start_stop : list (list Byte.byte) :=
  [OPPLE_COMMAND_START_MEASUREMENT; OPPLE_COMMAND_STOP_MEASUREMENT].

(** The commands written when the loop stops at await [k] of iteration [j]:
    awaits 0 and 1 follow the START write, awaits 2 and 3 the STOP write. *)
Definition commands_before (j k : nat) : list (list Byte.byte) :=
  concat (replicate j start_stop)
  ++ (if Nat.ltb k 2 then [OPPLE_COMMAND_START_MEASUREMENT] else start_stop).

Section PollingLoop.

Variable env : nat -> await_result.
Variable fs : filesystem.

Definition stopped_at (i k : nat) : phase_state :=
  {| current_measurements := OPPLE_read_1.deliver (arrivals env (4 * i + k + 1)) [];
     commands := commands_before i k;
     phase_files := fs |}.

(** One iteration: either its four awaits return and the loop goes on, or
    the first await that raises ends the [try] block. *)
Lemma poll_any (j : nat) (st : phase_state) :
  before_iteration env fs j st ->
  (exists st',
     poll env j st = (st', Ok tt) /\ before_iteration env fs (S j) st'
     /\ forall p, (4 * j <= p < 4 * j + 4)%nat -> raised (env p) = None)
  \/ (exists k e,
        (k < 4)%nat
        /\ (forall p, (4 * j <= p < 4 * j + k)%nat -> raised (env p) = None)
        /\ raised (env (4 * j + k)) = Some e
        /\ poll env j st = (stopped_at j k, Raise e)).
Proof.
  intros Hinv. pose proof Hinv as (Hcm & Hcmd & Hfs).
  assert (Hfail : forall k e,
            (k < 4)%nat ->
            (forall p, (4 * j <= p < 4 * j + k)%nat -> raised (env p) = None) ->
            raised (env (4 * j + k)) = Some e ->
            poll env j st = (stopped_at j k, Raise e)).
  { intros k e Hk Hok He. unfold poll, and_then, write_gatt_char, sleep, receive, outcome.
    unfold stopped_at, commands_before, start_stop.
    destruct k as [|[|[|[|k]]]]; [| | | |lia].
    - rewrite Nat.add_0_r in He. rewrite He.
      cbn [current_measurements commands phase_files].
      rewrite Nat.add_0_r, Nat.add_1_r. cbn [arrivals].
      rewrite deliver_app, <- Hcm, Hcmd, Hfs. reflexivity.
    - rewrite (Hok (4 * j)%nat), He by lia.
      cbn [current_measurements commands phase_files].
      replace (4 * j + 1 + 1)%nat with (S (S (4 * j))) by lia.
      cbn [arrivals]. rewrite !deliver_app, <- Hcm, Hcmd, Hfs.
      replace (4 * j + 1)%nat with (S (4 * j)) by lia. reflexivity.
    - rewrite (Hok (4 * j)%nat), (Hok (4 * j + 1)%nat), He by lia.
      cbn [current_measurements commands phase_files].
      replace (4 * j + 2 + 1)%nat with (S (S (S (4 * j)))) by lia.
      cbn [arrivals]. rewrite !deliver_app, <- Hcm, Hcmd, Hfs.
      replace (4 * j + 1)%nat with (S (4 * j)) by lia.
      replace (4 * j + 2)%nat with (S (S (4 * j))) by lia.
      rewrite <- app_assoc. reflexivity.
    - rewrite (Hok (4 * j)%nat), (Hok (4 * j + 1)%nat), (Hok (4 * j + 2)%nat), He by lia.
      cbn [current_measurements commands phase_files].
      replace (4 * j + 3 + 1)%nat with (S (S (S (S (4 * j))))) by lia.
      cbn [arrivals]. rewrite !deliver_app, <- Hcm, Hcmd, Hfs.
      replace (4 * j + 1)%nat with (S (4 * j)) by lia.
      replace (4 * j + 2)%nat with (S (S (4 * j))) by lia.
      replace (4 * j + 3)%nat with (S (S (S (4 * j)))) by lia.
      rewrite <- app_assoc. reflexivity. }
  assert (Hcase : forall p, raised (env p) = None \/ exists e, raised (env p) = Some e)
    by (intros p; destruct (raised (env p)); eauto).
  destruct (Hcase (4 * j + 0)%nat) as [H0|[e He]];
    [|right; exists 0%nat, e; repeat split; [lia | intros; lia | exact He | 
       apply Hfail; [lia | intros; lia | exact He]]].
  destruct (Hcase (4 * j + 1)%nat) as [H1|[e He]].
  2:{ assert (Hok : forall p, (4 * j <= p < 4 * j + 1)%nat -> raised (env p) = None).
      { intros p Hp. replace p with (4 * j + 0)%nat by lia. exact H0. }
      right. exists 1%nat, e. repeat split; [lia | exact Hok | exact He | ].
      apply Hfail; [lia | exact Hok | exact He]. }
  destruct (Hcase (4 * j + 2)%nat) as [H2|[e He]].
  2:{ assert (Hok : forall p, (4 * j <= p < 4 * j + 2)%nat -> raised (env p) = None).
      { intros p Hp.
        assert (p = 4 * j + 0 \/ p = 4 * j + 1)%nat as [->| ->] by lia; assumption. }
      right. exists 2%nat, e. repeat split; [lia | exact Hok | exact He | ].
      apply Hfail; [lia | exact Hok | exact He]. }
  destruct (Hcase (4 * j + 3)%nat) as [H3|[e He]].
  2:{ assert (Hok : forall p, (4 * j <= p < 4 * j + 3)%nat -> raised (env p) = None).
      { intros p Hp.
        assert (p = 4 * j + 0 \/ p = 4 * j + 1 \/ p = 4 * j + 2)%nat
          as [->|[->| ->]] by lia; assumption. }
      right. exists 3%nat, e. repeat split; [lia | exact Hok | exact He | ].
      apply Hfail; [lia | exact Hok | exact He]. }
  left.
  assert (Hok : forall p, (4 * j <= p < 4 * j + 4)%nat -> raised (env p) = None).
  { intros p Hp.
    assert (p = 4 * j + 0 \/ p = 4 * j + 1 \/ p = 4 * j + 2 \/ p = 4 * j + 3)%nat
      as [->|[->|[->| ->]]] by lia; assumption. }
  destruct (poll_ok env fs j st Hinv Hok) as (st' & Hpoll & Hinv').
  exists st'. repeat split; try assumption; apply Hinv'.
Qed.

(** The whole loop: it runs to the end, or stops at the first await that
    raises. *)
Lemma polling_loop_any (count j : nat) (st : phase_state) :
  before_iteration env fs j st ->
  (before_iteration env fs (j + count) (polling_loop env count j st)
   /\ forall p, (4 * j <= p < 4 * (j + count))%nat -> raised (env p) = None)
  \/ (exists i k e,
        (j <= i < j + count)%nat /\ (k < 4)%nat
        /\ (forall p, (4 * j <= p < 4 * i + k)%nat -> raised (env p) = None)
        /\ raised (env (4 * i + k)) = Some e
        /\ polling_loop env count j st = stopped_at i k).
Proof.
  revert j st. induction count as [|count IH]; intros j st Hinv.
  - left. rewrite Nat.add_0_r. split; [exact Hinv | intros; lia].
  - cbn [polling_loop].
    destruct (poll_any j st Hinv) as [(st' & Hpoll & Hinv' & Hok)|(k & e & Hk & Hok & He & Hpoll)].
    + rewrite Hpoll.
      destruct (IH (S j) st' Hinv') as [[Hend Hok']|(i & k & e & Hi & Hk & Hok' & He & Hloop)].
      * left. replace (j + S count)%nat with (S j + count)%nat by lia.
        split; [exact Hend|]. intros p Hp.
        destruct (Nat.lt_ge_cases p (4 * j + 4)); [apply Hok | apply Hok']; lia.
      * right. exists i, k, e. repeat split; try assumption; try lia.
        intros p Hp.
        destruct (Nat.lt_ge_cases p (4 * j + 4)); [apply Hok | apply Hok']; lia.
    + rewrite Hpoll. right. exists j, k, e. repeat split; try assumption; lia.
Qed.

End PollingLoop.

Lemma initial_before_iteration (env : nat -> await_result) (fs : filesystem) :
  before_iteration env fs 0
    {| current_measurements := []; commands := []; phase_files := fs |}.
Proof. repeat split. Qed.

Lemma run_measurement_phase_of_loop (env : nat -> await_result) (phase_name : string)
    (n : nat) (fs : filesystem) (st : phase_state) :
  polling_loop env n 0
    {| current_measurements := []; commands := []; phase_files := fs |} = st ->
  phase_files st = fs ->
  run_measurement_phase env phase_name n fs =
    {| current_measurements := current_measurements st;
       commands := commands st;
       phase_files :=
         save_measurements_to_csv (output_filename phase_name)
           (current_measurements st) fs |}.
Proof.
  intros Hloop Hfs. unfold run_measurement_phase. rewrite Hloop, Hfs. reflexivity.
Qed.



Lemma commands_before_prefix (n i k : nat) :
  (i < n)%nat -> commands_before i k `prefix_of` concat (replicate n start_stop).
Proof.
  intros Hi. replace n with (i + (1 + (n - i - 1)))%nat by lia.
  rewrite !replicate_add, !concat_app. unfold commands_before.
  apply prefix_app. cbn [replicate concat]. rewrite app_nil_r.
  destruct (Nat.ltb k 2).
  - exists (OPPLE_COMMAND_STOP_MEASUREMENT :: concat (replicate (n - i - 1) start_stop)).
    reflexivity.
  - apply prefix_app_r. reflexivity.
Qed.

(** X18. Whatever the transport does, a phase never writes anything but
    START and STOP alternately, beginning with START, and never more than
    [n] pairs; and what it has buffered at the end is what the notifications
    of the awaits it went through built, in delivery order. *)
Theorem phase_commands_alternate (env : nat -> await_result) (phase_name : string)
    (n : nat) (fs : filesystem) :
  let st := run_measurement_phase env phase_name n fs in
  commands st `prefix_of` concat (replicate n start_stop)
  /\ (length (commands st) <= 2 * n)%nat
  /\ exists p, (p <= 4 * n)%nat
       /\ current_measurements st = OPPLE_read_1.deliver (arrivals env p) [].
Proof.
  intros st.
  assert (H : commands st `prefix_of` concat (replicate n start_stop)
              /\ exists p, (p <= 4 * n)%nat
                   /\ current_measurements st = OPPLE_read_1.deliver (arrivals env p) []).
  { unfold st.
    destruct (polling_loop_any env fs n 0 _ (initial_before_iteration env fs))
      as [[(Hcm & Hcmd & Hfs) _]|(i & k & e & Hi & Hk & _ & _ & Hloop)].
    - rewrite (run_measurement_phase_of_loop env phase_name n fs _ eq_refl Hfs).
      cbn [commands current_measurements]. rewrite Hcm, Hcmd. split; [reflexivity|].
      exists (4 * n)%nat. split; [lia | reflexivity].
    - rewrite (run_measurement_phase_of_loop env phase_name n fs _ Hloop eq_refl).
      cbn [commands current_measurements stopped_at]. split.
      + apply commands_before_prefix. lia.
      + exists (4 * i + k + 1)%nat. split; [lia | reflexivity]. }
  destruct H as [Hpre Hbuf]. split; [exact Hpre|]. split; [|exact Hbuf].
  apply prefix_length in Hpre.
  assert (Hlen : forall m, length (concat (replicate m start_stop)) = (2 * m)%nat).
  { induction m as [|m IHm]; [reflexivity|].
    cbn [replicate concat]. rewrite length_app, IHm. simpl length. lia. }
  rewrite Hlen in Hpre. exact Hpre.
Qed.

(** ** The halogen reference mode of OPPLE_read.py *)

(** Menu choice 1 of [main] in OPPLE_read.py: the same polling cadence, but
    with no [try] around the awaits, so an exception leaves the loop and the
    mode (it is caught by [main]'s outer handler, which ends the session);
    the averages and the export come after the loop. *)
Module OPPLE_read_main.

Definition receive (a : await_result) (st : phase_state) : phase_state :=
  {| current_measurements := OPPLE_read.deliver (delivered a) (current_measurements st);
     commands := commands st;
     phase_files := phase_files st |}.

Definition write_gatt_char (a : await_result) (value : list Byte.byte) : phase unit :=
  fun st =>
    (receive a {| current_measurements := current_measurements st;
                  commands := commands st ++ [value];
                  phase_files := phase_files st |},
     outcome a).

Definition sleep (a : await_result) : phase unit :=
  fun st => (receive a st, outcome a).

Definition poll (env : nat -> await_result) (i : nat) : phase unit :=
  write_gatt_char (env (4 * i)%nat) OPPLE_COMMAND_START_MEASUREMENT >>
  sleep (env (4 * i + 1)%nat) >>
  write_gatt_char (env (4 * i + 2)%nat) OPPLE_COMMAND_STOP_MEASUREMENT >>
  sleep (env (4 * i + 3)%nat).

(** [for i in range(num_measurements)]; an exception propagates. *)
Fixpoint polling_loop (env : nat -> await_result) (count i : nat) : phase unit :=
  fun st =>
    match count with
    | O => (st, Ok tt)
    | S count' =>
        match poll env i st with
        | (st', Ok _) => polling_loop env count' (S i) st'
        | (st', Raise e) => (st', Raise e)
        end
    end.

Definition num_measurements : nat := 15.

Definition halogen_reference (env : nat -> await_result) (fs : filesystem)
  : phase_state * result (gmap string (option Qc)) :=
  let st0 := {| current_measurements := []; commands := []; phase_files := fs |} in
  match polling_loop env num_measurements 0 st0 with
  | (st, Raise e) => (st, Raise e)
  | (st, Ok _) =>
      match calculate_average (current_measurements st) with
      | Raise e => (st, Raise e)
      | Ok avg_data =>
          ({| current_measurements := current_measurements st;
              commands := commands st;
              phase_files :=
                save_measurements_to_csv "halogen_reference_measurements.csv"
                  (current_measurements st) (phase_files st) |},
           Ok avg_data)
      end
  end.

End OPPLE_read_main.

Section HalogenMode.

Variable env : nat -> await_result.
Variable fs : filesystem.







End HalogenMode.




(** ** The hex dump keeps the whole frame *)

(** The value of a hex digit: the number below 16 that [hex_digit] prints
    as that character, if there is one. *)
Definition unhex_digit (c : ascii) : option N :=
  List.find (fun n => Ascii.eqb (hex_digit n) c) (map N.of_nat (seq 0 16)).

(** Reading a hex dump back, two digits per byte. *)
Fixpoint unhex (s : string) : option (list Byte.byte) :=
  match s with
  | EmptyString => Some []
  | String c1 (String c2 rest) =>
      match unhex_digit c1, unhex_digit c2, unhex rest with
      | Some hi, Some lo, Some bytes =>
          match Byte.of_N (16 * hi + lo) with
          | Some b => Some (b :: bytes)
          | None => None
          end
      | _, _, _ => None
      end
  | String _ EmptyString => None
  end.

Lemma unhex_hex (data : list Byte.byte) : unhex (hex data) = Some data.
Proof.
  induction data as [|b data IH]; [reflexivity|].
  cbn [hex unhex]. rewrite IH. destruct b; reflexivity.
Qed.

(** X23. The [raw_hex] field loses nothing of the frame: it has two
    characters per byte, and two frames with the same hex dump are the same
    bytes. So the raw values of an exported row can always be recomputed
    from its hex column. *)
Theorem raw_hex_lossless (data data' : list Byte.byte) :
  String.length (hex data) = (2 * length data)%nat
  /\ (hex data = hex data' -> data = data').
Proof.
  split.
  - induction data as [|b data IH]; [reflexivity|].
    cbn [hex String.length length]. rewrite IH. lia.
  - intros Heq. pose proof (unhex_hex data) as H. rewrite Heq, unhex_hex in H.
    congruence.
Qed.

(** * The scripts with their raw log and with interruption

    The definitions above leave two things of the source out: the line the
    handler appends to the raw log for every notification, and the
    exceptions that are not subclasses of [Exception] (a cancelled task, an
    operator interrupt), which [except Exception] does not catch. This part
    adds both. *)

(** ** The raw log *)

(** The line the handler prints and appends to the log. *)
Definition console_log_line (current_time_log sender_uuid : string)
    (data : list Byte.byte) : string :=
  "[" +:+ current_time_log +:+ "] Raw data (Length: "
  +:+ str_of_int (Z.of_nat (length data)) +:+ ", Hex: " +:+ hex data
  +:+ ") FROM " +:+ sender_uuid.

(** [with open(path, 'a') as f: f.write(line + newline)] under
    [except IOError]: a text file is kept as its lines, each a row of one
    cell; a path that cannot be opened leaves the file system as it is. *)
Definition append_line (path line : string) (fs : filesystem) : filesystem :=
  if bool_decide (path ∈ unwritable fs) then fs
  else {| files := <[path := default [] (files fs !! path) ++ [[line]]]> (files fs);
          unwritable := unwritable fs |}.

Definition log_notification (path : string) (fs : filesystem) (n : notification)
  : filesystem :=
  append_line path (console_log_line (n_time n) (n_uuid n) (n_data n)) fs.

(** The log after a run of notifications. *)
Definition log_all (path : string) (ns : list notification) (fs : filesystem)
  : filesystem :=
  foldl (log_notification path) fs ns.

(** ** Awaits that may be interrupted *)

Inductive interruption : Type := CancelledError | KeyboardInterrupt.

(** What an awaited call can raise: a subclass of [Exception], or an
    exception outside [Exception], here a cancelled task or an operator
    interrupt. *)
Inductive raise_kind : Type :=
  | RaisesException (e : exn)
  | RaisesInterruption (x : interruption).

Record await_outcome : Type := AwaitOutcome {
  arriving : list notification;
  raising : option raise_kind
}.

Inductive completion (A : Type) : Type :=
  | Returned (a : A)
  | Raised (r : raise_kind).
Arguments Returned {A} a.
Arguments Raised {A} r.

Definition io (A : Type) : Type := phase_state -> phase_state * completion A.

Section Awaits.

(** The script's handler, as its effect on the buffer, and its log file. *)
Variable on_notification : list dict -> notification -> list dict.
Variable RAW_DATA_LOG_FILE : string.

(** One run of the callback: the log line is appended, then the frame is
    parsed and dispatched. *)
Definition handle_io (st : phase_state) (n : notification) : phase_state :=
  {| current_measurements := on_notification (current_measurements st) n;
     commands := commands st;
     phase_files := log_notification RAW_DATA_LOG_FILE (phase_files st) n |}.

Definition receive_io (a : await_outcome) (st : phase_state) : phase_state :=
  foldl handle_io st (arriving a).

Definition finish (a : await_outcome) : completion unit :=
  match raising a with
  | Some r => Raised r
  | None => Returned tt
  end.

Definition write_gatt_char_io (a : await_outcome) (value : list Byte.byte) : io unit :=
  fun st =>
    (receive_io a {| current_measurements := current_measurements st;
                     commands := commands st ++ [value];
                     phase_files := phase_files st |},
     finish a).

Definition sleep_io (a : await_outcome) : io unit :=
  fun st => (receive_io a st, finish a).

Definition then_io (m1 m2 : io unit) : io unit :=
  fun st =>
    match m1 st with
    | (st', Returned _) => m2 st'
    | (st', Raised r) => (st', Raised r)
    end.

(** The four awaits of one iteration, the same in both scripts. *)
Definition poll_io (env : nat -> await_outcome) (i : nat) : io unit :=
  then_io (then_io (then_io
    (write_gatt_char_io (env (4 * i)%nat) OPPLE_COMMAND_START_MEASUREMENT)
    (sleep_io (env (4 * i + 1)%nat)))
    (write_gatt_char_io (env (4 * i + 2)%nat) OPPLE_COMMAND_STOP_MEASUREMENT))
    (sleep_io (env (4 * i + 3)%nat)).

(** The notifications delivered during the first [p] awaits. *)
Fixpoint arrived (env : nat -> await_outcome) (p : nat) : list notification :=
  match p with
  | O => []
  | S q => arrived env q ++ arriving (env q)
  end.

Lemma receive_io_eq (a : await_outcome) (st : phase_state) :
  receive_io a st =
    {| current_measurements := foldl on_notification (current_measurements st) (arriving a);
       commands := commands st;
       phase_files := log_all RAW_DATA_LOG_FILE (arriving a) (phase_files st) |}.
Proof.
  unfold receive_io, log_all. generalize (arriving a) as ns. intros ns. revert st.
  induction ns as [|n ns IH]; intros st; [destruct st; reflexivity|].
  cbn [foldl]. rewrite IH. reflexivity.
Qed.

Variable env : nat -> await_outcome.
Variable fs : filesystem.

(** The state after [p] awaits that all returned. *)
Definition before_io (j : nat) (st : phase_state) : Prop :=
  current_measurements st = foldl on_notification [] (arrived env (4 * j))
  /\ commands st = concat (replicate j start_stop)
  /\ phase_files st = log_all RAW_DATA_LOG_FILE (arrived env (4 * j)) fs.

(** The state when await [k] of iteration [i] raises. *)
Definition stopped_io (i k : nat) : phase_state :=
  {| current_measurements := foldl on_notification [] (arrived env (4 * i + k + 1));
     commands := commands_before i k;
     phase_files := log_all RAW_DATA_LOG_FILE (arrived env (4 * i + k + 1)) fs |}.

Lemma poll_io_any (j : nat) (st : phase_state) :
  before_io j st ->
  (exists st',
     poll_io env j st = (st', Returned tt) /\ before_io (S j) st'
     /\ forall p, (4 * j <= p < 4 * j + 4)%nat -> raising (env p) = None)
  \/ (exists k r,
        (k < 4)%nat
        /\ (forall p, (4 * j <= p < 4 * j + k)%nat -> raising (env p) = None)
        /\ raising (env (4 * j + k)) = Some r
        /\ poll_io env j st = (stopped_io j k, Raised r)).
Proof.
  intros (Hcm & Hcmd & Hfs).
  assert (Hcase : forall p, raising (env p) = None \/ exists r, raising (env p) = Some r)
    by (intros p; destruct (raising (env p)); eauto).
  unfold poll_io, then_io, write_gatt_char_io, sleep_io, finish.
  rewrite !receive_io_eq.
  unfold stopped_io, before_io, commands_before, start_stop, log_all.
  unfold log_all in Hfs.
  cbn [current_measurements commands phase_files].
  replace (4 * S j)%nat with (S (S (S (S (4 * j))))) by lia.
  destruct (Hcase (4 * j)%nat) as [H0|[r Hr]].
  2:{ right. exists 0%nat, r. rewrite !Nat.add_0_r, Nat.add_1_r, Hr.
      cbn [arrived]. rewrite !foldl_app, <- Hcm, Hcmd, <- Hfs.
      repeat split; [lia | intros; lia]. }
  destruct (Hcase (4 * j + 1)%nat) as [H1|[r Hr]].
  2:{ right. exists 1%nat, r. rewrite H0, Hr. cbv beta iota zeta.
      rewrite ?receive_io_eq. cbn [current_measurements commands phase_files].
      replace (4 * j + 1 + 1)%nat with (S (S (4 * j))) by lia.
      cbn [arrived]. unfold log_all. rewrite !foldl_app, <- Hcm, Hcmd, <- Hfs.
      replace (4 * j + 1)%nat with (S (4 * j)) by lia.
      repeat split; [lia|]. intros p Hp. replace p with (4 * j)%nat by lia. exact H0. }
  destruct (Hcase (4 * j + 2)%nat) as [H2|[r Hr]].
  2:{ right. exists 2%nat, r. rewrite H0, H1, Hr. cbv beta iota zeta.
      rewrite ?receive_io_eq. cbn [current_measurements commands phase_files].
      replace (4 * j + 2 + 1)%nat with (S (S (S (4 * j)))) by lia.
      cbn [arrived]. unfold log_all.
      rewrite !foldl_app, <- Hcm, Hcmd, <- Hfs, <- app_assoc.
      replace (4 * j + 1)%nat with (S (4 * j)) in * by lia.
      replace (4 * j + 2)%nat with (S (S (4 * j))) by lia.
      repeat split; [lia|]. intros p Hp.
      assert (p = 4 * j \/ p = S (4 * j))%nat as [->| ->] by lia; assumption. }
  destruct (Hcase (4 * j + 3)%nat) as [H3|[r Hr]].
  2:{ right. exists 3%nat, r. rewrite H0, H1, H2, Hr. cbv beta iota zeta.
      rewrite ?receive_io_eq. cbn [current_measurements commands phase_files].
      replace (4 * j + 3 + 1)%nat with (S (S (S (S (4 * j))))) by lia.
      cbn [arrived]. unfold log_all.
      rewrite !foldl_app, <- Hcm, Hcmd, <- Hfs, <- app_assoc.
      replace (4 * j + 1)%nat with (S (4 * j)) in * by lia.
      replace (4 * j + 2)%nat with (S (S (4 * j))) in * by lia.
      replace (4 * j + 3)%nat with (S (S (S (4 * j)))) by lia.
      repeat split; [lia|]. intros p Hp.
      assert (p = 4 * j \/ p = S (4 * j) \/ p = S (S (4 * j)))%nat
        as [->|[->| ->]] by lia; assumption. }
  left. rewrite H0, H1, H2, H3. cbv beta iota zeta.
  rewrite ?receive_io_eq. cbn [current_measurements commands phase_files].
  eexists. split; [reflexivity|].
  cbn [current_measurements commands phase_files arrived]. unfold log_all.
  split; [split; [|split]|].
  - rewrite !foldl_app, <- Hcm.
    replace (4 * j + 1)%nat with (S (4 * j)) by lia.
    replace (4 * j + 2)%nat with (S (S (4 * j))) by lia.
    replace (4 * j + 3)%nat with (S (S (S (4 * j)))) by lia.
    reflexivity.
  - rewrite Hcmd, <- app_assoc. replace (S j) with (j + 1)%nat by lia.
    rewrite replicate_add, concat_app. reflexivity.
  - rewrite !foldl_app, <- Hfs.
    replace (4 * j + 1)%nat with (S (4 * j)) by lia.
    replace (4 * j + 2)%nat with (S (S (4 * j))) by lia.
    replace (4 * j + 3)%nat with (S (S (S (4 * j)))) by lia.
    reflexivity.
  - intros p Hp.
    assert (p = 4 * j \/ p = 4 * j + 1 \/ p = 4 * j + 2 \/ p = 4 * j + 3)%nat
      as [->|[->|[->| ->]]] by lia; assumption.
Qed.

Lemma initial_before_io :
  before_io 0 {| current_measurements := []; commands := []; phase_files := fs |}.
Proof. repeat split. Qed.

End Awaits.

Lemma append_line_other (path line other : string) (fs : filesystem) :
  other <> path -> files (append_line path line fs) !! other = files fs !! other.
Proof.
  intros Hne. unfold append_line. case_bool_decide; [reflexivity|].
  simpl. apply lookup_insert_ne. congruence.
Qed.

Lemma log_all_other (path other : string) (ns : list notification) (fs : filesystem) :
  other <> path -> files (log_all path ns fs) !! other = files fs !! other.
Proof.
  intros Hne. unfold log_all. revert fs.
  induction ns as [|n ns IH]; intros fs; [reflexivity|].
  cbn [foldl]. rewrite IH. apply append_line_other. exact Hne.
Qed.

Lemma arrived_no_light (env : nat -> await_outcome) (bound p : nat) :
  (forall q, (q < bound)%nat ->
     Forall (fun x => is_light_frame x = false) (arriving (env q))) ->
  (p <= bound)%nat ->
  List.filter is_light_frame (arrived env p) = [].
Proof.
  intros Hno. induction p as [|p IH]; intros Hp; [reflexivity|].
  cbn [arrived]. rewrite List.filter_app, IH by lia. simpl app.
  assert (Hq := Hno p ltac:(lia)).
  induction Hq as [|x l Hx _ IHl]; [reflexivity|].
  simpl. rewrite Hx. exact IHl.
Qed.

(** ** run_measurement_phase and main of OPPLE_read_1.py, in full *)

Module OPPLE_read_1_io.

Definition RAW_DATA_LOG_FILE : string := "raw_data_full_session_log.txt".

Definition poll (env : nat -> await_outcome) (i : nat) : io unit :=
  poll_io OPPLE_read_1.on_notification RAW_DATA_LOG_FILE env i.

(** [for i in range(num_measurements)] around [try: ... except Exception:
    break]: a subclass of [Exception] ends the loop, anything else leaves
    the function. *)
Fixpoint polling_loop (env : nat -> await_outcome) (count i : nat) (st : phase_state)
  : phase_state * option interruption :=
  match count with
  | O => (st, None)
  | S count' =>
      match poll env i st with
      | (st', Returned _) => polling_loop env count' (S i) st'
      | (st', Raised (RaisesException _)) => (st', None)
      | (st', Raised (RaisesInterruption x)) => (st', Some x)
      end
  end.

(** The export follows the loop only if the loop was left normally. The
    operator prompt before the loop is taken to return. *)
Definition run_measurement_phase (env : nat -> await_outcome) (phase_name : string)
    (num_measurements : nat) (fs : filesystem) : phase_state * option interruption :=
  match polling_loop env num_measurements 0
          {| current_measurements := []; commands := []; phase_files := fs |} with
  | (st, None) =>
      ({| current_measurements := current_measurements st;
          commands := commands st;
          phase_files :=
            save_measurements_to_csv (output_filename phase_name)
              (current_measurements st) (phase_files st) |},
       None)
  | (st, Some x) => (st, Some x)
  end.


End OPPLE_read_1_io.

(** What leaves the loop of OPPLE_read_1.py for a given raise. *)
Definition escapes (r : raise_kind) : option interruption :=
  match r with
  | RaisesException _ => None
  | RaisesInterruption x => Some x
  end.

Section Phase1.

Variable env : nat -> await_outcome.
Variable fs : filesystem.

Abbreviation LOG := OPPLE_read_1_io.RAW_DATA_LOG_FILE.
Abbreviation before_1 := (before_io OPPLE_read_1.on_notification LOG env fs).
Abbreviation stopped_1 := (stopped_io OPPLE_read_1.on_notification LOG env fs).

Lemma polling_loop_1_any (count j : nat) (st : phase_state) :
  before_1 j st ->
  (exists st',
     OPPLE_read_1_io.polling_loop env count j st = (st', None)
     /\ before_1 (j + count)%nat st'
     /\ forall p, (4 * j <= p < 4 * (j + count))%nat -> raising (env p) = None)
  \/ (exists i k r,
        (j <= i < j + count)%nat /\ (k < 4)%nat
        /\ (forall p, (4 * j <= p < 4 * i + k)%nat -> raising (env p) = None)
        /\ raising (env (4 * i + k)%nat) = Some r
        /\ OPPLE_read_1_io.polling_loop env count j st = (stopped_1 i k, escapes r)).
Proof.
  revert j st. induction count as [|count IH]; intros j st Hinv.
  - left. exists st. rewrite Nat.add_0_r. repeat split; try apply Hinv. intros; lia.
  - cbn [OPPLE_read_1_io.polling_loop]. unfold OPPLE_read_1_io.poll.
    destruct (poll_io_any _ _ env fs j st Hinv)
      as [(st' & Hpoll & Hinv' & Hok)|(k & r & Hk & Hok & Hr & Hpoll)].
    + rewrite Hpoll.
      destruct (IH (S j) st' Hinv')
        as [(st'' & Hloop & Hend & Hok')|(i & k & r & Hi & Hk & Hok' & Hr & Hloop)].
      * left. exists st''. replace (j + S count)%nat with (S j + count)%nat by lia.
        split; [exact Hloop|]. split; [exact Hend|]. intros p Hp.
        destruct (Nat.lt_ge_cases p (4 * j + 4)); [apply Hok | apply Hok']; lia.
      * right. exists i, k, r. repeat split; try assumption; try lia.
        intros p Hp.
        destruct (Nat.lt_ge_cases p (4 * j + 4)); [apply Hok | apply Hok']; lia.
    + rewrite Hpoll. right. exists j, k, r.
      repeat split; try assumption; try lia. destruct r; reflexivity.
Qed.

(** Every phase: the awaits gone through decide buffer and log, and the
    export is reached unless an interruption left the function. *)
Lemma run_measurement_phase_1_any (phase_name : string) (n : nat) :
  exists p cmds,
    (p <= 4 * n)%nat
    /\ let buffered := OPPLE_read_1.deliver (arrived env p) [] in
       let logged := log_all LOG (arrived env p) fs in
       OPPLE_read_1_io.run_measurement_phase env phase_name n fs =
         ({| current_measurements := buffered; commands := cmds;
             phase_files :=
               save_measurements_to_csv (output_filename phase_name) buffered logged |},
          None)
       \/ exists x,
            OPPLE_read_1_io.run_measurement_phase env phase_name n fs =
              ({| current_measurements := buffered; commands := cmds;
                  phase_files := logged |}, Some x).
Proof.
  unfold OPPLE_read_1_io.run_measurement_phase.
  destruct (polling_loop_1_any n 0 _
              (initial_before_io OPPLE_read_1.on_notification LOG env fs))
    as [(st' & Hloop & (Hcm & Hcmd & Hfs) & _)|(i & k & r & Hi & Hk & _ & _ & Hloop)].
  - exists (4 * n)%nat, (concat (replicate n start_stop)). split; [lia|].
    left. rewrite Hloop, Hcm, Hcmd, Hfs. reflexivity.
  - exists (4 * i + k + 1)%nat, (commands_before i k). split; [lia|].
    rewrite Hloop. destruct r as [e|x]; [left | right; exists x]; reflexivity.
Qed.

End Phase1.

(** X16. What ends the polling loop of OPPLE_read_1.py. If the first await
    to raise is await [k] of iteration [i] (a write or a sleep), no later
    command is written and no later notification is processed. When it
    raises a subclass of [Exception] the loop breaks and the phase exports
    the buffer built so far. When it raises [CancelledError] or
    [KeyboardInterrupt], which [except Exception] does not catch, the
    exception leaves [run_measurement_phase] and nothing is exported,
    although the buffer holds the records. Either way the raw log has one
    line per notification delivered up to there. *)
Theorem first_raise_ends_polling (env : nat -> await_outcome) (phase_name : string)
    (n : nat) (fs : filesystem) (i k : nat) (r : raise_kind) :
  (i < n)%nat -> (k < 4)%nat ->
  (forall p, (p < 4 * i + k)%nat -> raising (env p) = None) ->
  raising (env (4 * i + k)%nat) = Some r ->
  let buffered := OPPLE_read_1.deliver (arrived env (4 * i + k + 1)) [] in
  let logged :=
    log_all OPPLE_read_1_io.RAW_DATA_LOG_FILE (arrived env (4 * i + k + 1)) fs in
  OPPLE_read_1_io.run_measurement_phase env phase_name n fs =
    match r with
    | RaisesException _ =>
        ({| current_measurements := buffered;
            commands := commands_before i k;
            phase_files :=
              save_measurements_to_csv (output_filename phase_name) buffered logged |},
         None)
    | RaisesInterruption x =>
        ({| current_measurements := buffered;
            commands := commands_before i k;
            phase_files := logged |},
         Some x)
    end.
Proof.
  intros Hi Hk Hok Hr buffered logged.
  unfold OPPLE_read_1_io.run_measurement_phase.
  destruct (polling_loop_1_any env fs n 0 _
              (initial_before_io OPPLE_read_1.on_notification
                 OPPLE_read_1_io.RAW_DATA_LOG_FILE env fs))
    as [(st' & _ & _ & Hall)|(i' & k' & r' & Hi' & Hk' & Hok' & Hr' & Hloop)].
  - rewrite Hall in Hr by lia. discriminate.
  - assert (Hsame : (4 * i' + k' = 4 * i + k)%nat).
    { destruct (Nat.lt_trichotomy (4 * i' + k') (4 * i + k)) as [Hlt|[Heq|Hgt]];
        [|exact Heq|].
      - rewrite Hok in Hr' by exact Hlt. discriminate.
      - rewrite Hok' in Hr by lia. discriminate. }
    assert (i' = i /\ k' = k) as [-> ->] by lia.
    rewrite Hr in Hr'. inversion Hr'. subst r'.
    rewrite Hloop. destruct r; reflexivity.
Qed.

(** A light frame and a battery frame arrive, then the dwell sleep of the
    second iteration is cancelled. *)
Definition cancelled_env (p : nat) : await_outcome :=
  match p with
  | 1%nat =>
      AwaitOutcome
        [Notification "12:00:00.400" OPPLE_CHARACTERISTIC_UUID_COMMAND_TX example_frame]
        None
  | 2%nat =>
      AwaitOutcome
        [Notification "12:00:00.950" OPPLE_CHARACTERISTIC_UUID_COMMAND_TX
           example_battery_frame] None
  | 5%nat => AwaitOutcome [] (Some (RaisesInterruption CancelledError))
  | _ => AwaitOutcome [] None
  end.

Lemma first_raise_ends_polling_witness :
  let buffered := OPPLE_read_1.deliver (arrived cancelled_env (4 * 1 + 1 + 1)) [] in
  let logged :=
    log_all OPPLE_read_1_io.RAW_DATA_LOG_FILE (arrived cancelled_env (4 * 1 + 1 + 1))
      empty_fs in
  OPPLE_read_1_io.run_measurement_phase cancelled_env "No Filter" 15 empty_fs =
    ({| current_measurements := buffered;
        commands := commands_before 1 1;
        phase_files := logged |},
     Some CancelledError).
Proof.
  apply (first_raise_ends_polling cancelled_env "No Filter" 15 empty_fs 1 1
           (RaisesInterruption CancelledError)).
  - lia.
  - lia.
  - intros p Hp. do 5 (destruct p as [|p]; [reflexivity|]). lia.
  - reflexivity.
Defined.

(** The cancelled phase above: one record was buffered, two lines were
    logged, and no measurement file exists. *)
Example cancelled_phase_exports_nothing :
  let st := fst (OPPLE_read_1_io.run_measurement_phase cancelled_env "No Filter" 15
                   empty_fs) in
  length (current_measurements st) = 1%nat
  /\ files (phase_files st) !! "measurements_no_filter.csv" = None
  /\ (length <$> files (phase_files st) !! "raw_data_full_session_log.txt") = Some 2%nat.
Proof. vm_compute. repeat split. Qed.

(** X19. A phase of OPPLE_read_1.py during which no frame classified
    [LIGHT_DETECTED] arrives ends with an empty buffer and writes no
    measurement file: whatever else arrived, and however the loop ended, the
    only change to the file system is the raw log, which has gained one line
    per notification of the awaits gone through. *)
Theorem phase_without_light_only_logs (env : nat -> await_outcome)
    (phase_name : string) (n : nat) (fs : filesystem) :
  (forall p, (p < 4 * n)%nat ->
     Forall (fun x => is_light_frame x = false) (arriving (env p))) ->
  let st := fst (OPPLE_read_1_io.run_measurement_phase env phase_name n fs) in
  current_measurements st = []
  /\ (exists p, (p <= 4 * n)%nat
        /\ phase_files st =
             log_all OPPLE_read_1_io.RAW_DATA_LOG_FILE (arrived env p) fs)
  /\ forall other, other <> OPPLE_read_1_io.RAW_DATA_LOG_FILE ->
       files (phase_files st) !! other = files fs !! other.
Proof.
  intros Hno st.
  destruct (run_measurement_phase_1_any env fs phase_name n) as (p & cmds & Hp & Hrun).
  assert (Hnil : OPPLE_read_1.deliver (arrived env p) [] = []).
  { apply length_zero_iff_nil.
    rewrite deliver_1_length, (arrived_no_light env (4 * n) p Hno Hp). reflexivity. }
  assert (Hst : current_measurements st = []
                /\ phase_files st =
                     log_all OPPLE_read_1_io.RAW_DATA_LOG_FILE (arrived env p) fs).
  { unfold st. cbv zeta in Hrun. rewrite Hnil in Hrun.
    destruct Hrun as [-> | (x & ->)]; split; reflexivity. }
  destruct Hst as [Hcm Hfs]. split; [exact Hcm|]. split.
  - exists p. split; [exact Hp | exact Hfs].
  - intros other Hother. rewrite Hfs. apply log_all_other. exact Hother.
Qed.

Definition dark_outcomes (p : nat) : await_outcome :=
  AwaitOutcome
    [Notification "12:00:00.000" OPPLE_CHARACTERISTIC_UUID_COMMAND_TX dark_frame;
     Notification "12:00:00.500" OPPLE_CHARACTERISTIC_UUID_COMMAND_TX
       example_battery_frame;
     Notification "12:00:00.700" OPPLE_CHARACTERISTIC_UUID_DATA_RX example_frame]
    None.

Lemma phase_without_light_only_logs_witness :
  let st := fst (OPPLE_read_1_io.run_measurement_phase dark_outcomes "4 Layers" 15
                   empty_fs) in
  current_measurements st = []
  /\ (exists p, (p <= 4 * 15)%nat
        /\ phase_files st =
             log_all OPPLE_read_1_io.RAW_DATA_LOG_FILE (arrived dark_outcomes p) empty_fs)
  /\ forall other, other <> OPPLE_read_1_io.RAW_DATA_LOG_FILE ->
       files (phase_files st) !! other = files empty_fs !! other.
Proof.
  apply (phase_without_light_only_logs dark_outcomes "4 Layers" 15 empty_fs).
  intros p Hp. repeat constructor.
Defined.



(** ** The halogen reference mode of OPPLE_read.py, in full *)

Module OPPLE_read_io.

Definition RAW_DATA_LOG_FILE : string := "raw_data.txt".

Definition poll (env : nat -> await_outcome) (i : nat) : io unit :=
  poll_io OPPLE_read.on_notification RAW_DATA_LOG_FILE env i.

(** [for i in range(num_measurements)] with no [try]: whatever an await
    raises leaves the loop. *)
Fixpoint polling_loop (env : nat -> await_outcome) (count i : nat) : io unit :=
  fun st =>
    match count with
    | O => (st, Returned tt)
    | S count' =>
        match poll env i st with
        | (st', Returned _) => polling_loop env count' (S i) st'
        | (st', Raised r) => (st', Raised r)
        end
    end.

(** Menu choice 1: the loop, then the averages, then the export. *)
Definition halogen_reference (env : nat -> await_outcome) (fs : filesystem)
  : phase_state * completion (gmap string (option Qc)) :=
  let st0 := {| current_measurements := []; commands := []; phase_files := fs |} in
  match polling_loop env OPPLE_read_main.num_measurements 0 st0 with
  | (st, Raised r) => (st, Raised r)
  | (st, Returned _) =>
      match calculate_average (current_measurements st) with
      | Raise e => (st, Raised (RaisesException e))
      | Ok avg_data =>
          ({| current_measurements := current_measurements st;
              commands := commands st;
              phase_files :=
                save_measurements_to_csv "halogen_reference_measurements.csv"
                  (current_measurements st) (phase_files st) |},
           Returned avg_data)
      end
  end.

End OPPLE_read_io.

Lemma polling_loop_0_io_any (env : nat -> await_outcome) (fs : filesystem)
    (count j : nat) (st : phase_state) :
  before_io OPPLE_read.on_notification OPPLE_read_io.RAW_DATA_LOG_FILE env fs j st ->
  (exists st',
     OPPLE_read_io.polling_loop env count j st = (st', Returned tt)
     /\ forall p, (4 * j <= p < 4 * (j + count))%nat -> raising (env p) = None)
  \/ (exists i k r,
        (j <= i < j + count)%nat /\ (k < 4)%nat
        /\ (forall p, (4 * j <= p < 4 * i + k)%nat -> raising (env p) = None)
        /\ raising (env (4 * i + k)%nat) = Some r
        /\ OPPLE_read_io.polling_loop env count j st =
             (stopped_io OPPLE_read.on_notification OPPLE_read_io.RAW_DATA_LOG_FILE
                env fs i k, Raised r)).
Proof.
  revert j st. induction count as [|count IH]; intros j st Hinv.
  - left. exists st. split; [reflexivity | intros; lia].
  - cbn [OPPLE_read_io.polling_loop]. unfold OPPLE_read_io.poll.
    destruct (poll_io_any _ _ env fs j st Hinv)
      as [(st' & Hpoll & Hinv' & Hok)|(k & r & Hk & Hok & Hr & Hpoll)].
    + rewrite Hpoll.
      destruct (IH (S j) st' Hinv')
        as [(st'' & Hloop & Hok')|(i & k & r & Hi & Hk & Hok' & Hr & Hloop)].
      * left. exists st''. split; [exact Hloop|]. intros p Hp.
        destruct (Nat.lt_ge_cases p (4 * j + 4)); [apply Hok | apply Hok']; lia.
      * right. exists i, k, r. repeat split; try assumption; try lia.
        intros p Hp.
        destruct (Nat.lt_ge_cases p (4 * j + 4)); [apply Hok | apply Hok']; lia.
    + rewrite Hpoll. right. exists j, k, r. repeat split; try assumption; lia.
Qed.

(** X21. In the halogen reference mode of OPPLE_read.py, which has no
    [try] around its awaits, whatever the first raising await raises leaves
    the mode at once: no further command is written, and neither the
    averages nor the export are reached. The buffer holds the records
    collected so far, but the measurement file is not written; the only
    change to the file system is the raw log, with one line per
    notification delivered up to there. *)
Theorem halogen_raise_exports_nothing (env : nat -> await_outcome)
    (fs : filesystem) (i k : nat) (r : raise_kind) :
  (i < OPPLE_read_main.num_measurements)%nat -> (k < 4)%nat ->
  (forall p, (p < 4 * i + k)%nat -> raising (env p) = None) ->
  raising (env (4 * i + k)%nat) = Some r ->
  let logged :=
    log_all OPPLE_read_io.RAW_DATA_LOG_FILE (arrived env (4 * i + k + 1)) fs in
  OPPLE_read_io.halogen_reference env fs =
    ({| current_measurements := OPPLE_read.deliver (arrived env (4 * i + k + 1)) [];
        commands := commands_before i k;
        phase_files := logged |},
     Raised r)
  /\ forall other, other <> OPPLE_read_io.RAW_DATA_LOG_FILE ->
       files logged !! other = files fs !! other.
Proof.
  intros Hi Hk Hok Hr logged. split; [|intros other Ho; apply log_all_other; exact Ho].
  unfold OPPLE_read_io.halogen_reference.
  destruct (polling_loop_0_io_any env fs OPPLE_read_main.num_measurements 0 _
              (initial_before_io OPPLE_read.on_notification
                 OPPLE_read_io.RAW_DATA_LOG_FILE env fs))
    as [(st' & _ & Hall)|(i' & k' & r' & Hi' & Hk' & Hok' & Hr' & Hloop)].
  - rewrite Hall in Hr by lia. discriminate.
  - assert (Hsame : (4 * i' + k' = 4 * i + k)%nat).
    { destruct (Nat.lt_trichotomy (4 * i' + k') (4 * i + k)) as [Hlt|[Heq|Hgt]];
        [|exact Heq|].
      - rewrite Hok in Hr' by exact Hlt. discriminate.
      - rewrite Hok' in Hr by lia. discriminate. }
    assert (i' = i /\ k' = k) as [-> ->] by lia.
    rewrite Hr in Hr'. inversion Hr'. subst r'.
    rewrite Hloop. reflexivity.
Qed.

(** A light frame and a battery frame arrive, then the START write of the
    second iteration fails. *)
Definition failing_write_env (p : nat) : await_outcome :=
  match p with
  | 1%nat =>
      AwaitOutcome
        [Notification "12:00:00.400" OPPLE_CHARACTERISTIC_UUID_COMMAND_TX example_frame]
        None
  | 2%nat =>
      AwaitOutcome
        [Notification "12:00:00.950" OPPLE_CHARACTERISTIC_UUID_COMMAND_TX
           example_battery_frame] None
  | 4%nat => AwaitOutcome [] (Some (RaisesException (OtherException "Not connected")))
  | _ => AwaitOutcome [] None
  end.

Lemma halogen_raise_exports_nothing_witness :
  let logged :=
    log_all OPPLE_read_io.RAW_DATA_LOG_FILE (arrived failing_write_env (4 * 1 + 0 + 1))
      empty_fs in
  OPPLE_read_io.halogen_reference failing_write_env empty_fs =
    ({| current_measurements :=
          OPPLE_read.deliver (arrived failing_write_env (4 * 1 + 0 + 1)) [];
        commands := commands_before 1 0;
        phase_files := logged |},
     Raised (RaisesException (OtherException "Not connected")))
  /\ forall other, other <> OPPLE_read_io.RAW_DATA_LOG_FILE ->
       files logged !! other = files empty_fs !! other.
Proof.
  apply (halogen_raise_exports_nothing failing_write_env empty_fs 1 0
           (RaisesException (OtherException "Not connected"))).
  - unfold OPPLE_read_main.num_measurements. lia.
  - lia.
  - intros p Hp. do 4 (destruct p as [|p]; [reflexivity|]). lia.
  - reflexivity.
Defined.

(** The failed halogen run above: one record in the buffer, two lines in
    the log, no measurement file. *)
Example failed_halogen_run :
  let st := fst (OPPLE_read_io.halogen_reference failing_write_env empty_fs) in
  length (current_measurements st) = 1%nat
  /\ files (phase_files st) !! "halogen_reference_measurements.csv" = None
  /\ (length <$> files (phase_files st) !! "raw_data.txt") = Some 2%nat.
Proof. vm_compute. repeat split. Qed.
